(** * politics.news: the RSS reader's feed adapter and presentation state

    A shallow embedding of the two programs of the repository:
    - [src/main.go], the reader served over SSH (module [Served]);
    - [src/unnamed/part_000], the reader run in the local terminal
      (module [Local]) and the program that prints the feed (module [Cli]).

    Both share the data model, [toListItems], [scrapeUrlFeed] and
    [openBrowser]; each has its own [Update] and [View].  The libraries the
    programs call (the bubbles list widget, lipgloss, glamour, net/http,
    encoding/xml, os/exec) are interfaces here: a type class for the list
    widget and a record of functions for the rest. *)

From Stdlib Require Import ZArith Lia Strings.Byte.
From stdpp Require Import base list strings pretty.

Local Open Scope string_scope.
Local Open Scope list_scope.

(** ** Data model *)

(** [type rssListItem struct { title, desc, link string }] *)
Record rssListItem : Type := mkRssListItem {
  title : string;
  desc : string;
  link : string;
}.

(** An entry whose link is not the link of [r]. *)
Definition other_entry (r : rssListItem) : rssListItem :=
  {| title := title r; desc := desc r;
     link := if String.eqb (link r) "" then "x" else "" |}.

(** The three methods that make [rssListItem] a [list.DefaultItem]. *)
Definition rssListItem_Title (r : rssListItem) : string := title r.
Definition rssListItem_Description (r : rssListItem) : string := desc r.
Definition rssListItem_FilterValue (r : rssListItem) : string := title r.

(** The zero value [rssListItem{}]. *)
Definition rssListItem_zero : rssListItem :=
  {| title := ""; desc := ""; link := "" |}.

(** [type RSSItem struct]; the feed also has a [Title], a [Link] and a
    [Description], so the projections carry the struct's name. *)
Record RSSItem : Type := mkRSSItem {
  item_Title : string;
  item_Link : string;
  item_Description : string;
  item_Id : string;
  item_PublishDate : string;
  item_Creator : string;
}.

(** [type RSSFeed struct] *)
Record RSSFeed : Type := mkRSSFeed {
  feed_Title : string;
  feed_Link : string;
  feed_Description : string;
  feed_LastBuildDate : string;
  feed_Items : list RSSItem;
}.

(** [type RSS struct { Channel RSSFeed }] *)
Record RSS : Type := mkRSS { Channel : RSSFeed }.

(** The zero values [RSSFeed{}] and [RSS{}]. *)
Definition RSSFeed_zero : RSSFeed :=
  {| feed_Title := ""; feed_Link := ""; feed_Description := "";
     feed_LastBuildDate := ""; feed_Items := [] |}.
Definition RSS_zero : RSS := {| Channel := RSSFeed_zero |}.

(** A value of the interface type [list.Item]: the nil interface, an
    [rssListItem], or a value of some other dynamic type. *)
Inductive Item : Type :=
  | ItemNil
  | ItemRss (r : rssListItem)
  | ItemOther (dyn : string).

(** The type assertion [x.(rssListItem)] in its comma-ok form. *)
Definition asRssListItem (x : Item) : option rssListItem :=
  match x with
  | ItemRss r => Some r
  | _ => None
  end.

(** An error value made by a library (net/http, io, encoding/xml, os/exec,
    glamour): the package it comes from and its text. *)
Record LibErr : Type := mkLibErr {
  err_pkg : string;
  err_msg : string;
}.

(** Go's [error]: the values the programs build themselves with
    [fmt.Errorf], and the values handed back by a library call. *)
Inductive error : Type :=
  | Errorf (msg : string)
  | LibError (e : LibErr).

(** The method [Error() string]. *)
Definition error_Error (e : error) : string :=
  match e with
  | Errorf msg => msg
  | LibError e => err_msg e
  end.

#[global] Instance rssListItem_eq_dec : EqDecision rssListItem.
Proof. solve_decision. Defined.
#[global] Instance RSSItem_eq_dec : EqDecision RSSItem.
Proof. solve_decision. Defined.
#[global] Instance Item_eq_dec : EqDecision Item.
Proof. solve_decision. Defined.
#[global] Instance LibErr_eq_dec : EqDecision LibErr.
Proof. solve_decision. Defined.
#[global] Instance error_eq_dec : EqDecision error.
Proof. solve_decision. Defined.

(** ** The item adapter *)

(** The body of the loop of [toListItems]. *)
Definition toListItem (item : RSSItem) : rssListItem :=
  {| title := item_Title item;
     desc := item_Description item;
     link := item_Link item |}.

(** [func toListItems(items []RSSItem) []list.Item]: a slice of
    [len(items)] nil interfaces, filled index by index. *)
Definition toListItems (items : list RSSItem) : list Item :=
  let l := replicate (length items) ItemNil in
  foldl (fun l '(i, item) => <[i := ItemRss (toListItem item)]> l)
        l (imap pair items).

(** Overwrites the three fields of an [RSSItem] that [rssListItem] has no
    counterpart for. *)
Definition with_meta (guid pubDate creator : string) (it : RSSItem) : RSSItem :=
  {| item_Title := item_Title it;
     item_Link := item_Link it;
     item_Description := item_Description it;
     item_Id := guid;
     item_PublishDate := pubDate;
     item_Creator := creator |}.

(** ** Messages, commands and effects *)

(** A [tea.Msg].  A [tea.KeyMsg] is kept as the text its [String] method
    gives, which is all that [Update] inspects. *)
Inductive Msg : Type :=
  | KeyMsg (key : string)
  | WindowSizeMsg (Width Height : Z)
  | OtherMsg (id : nat).

(** A [tea.Cmd]: nil, [tea.Quit], or a command made by a library. *)
Inductive Cmd : Type :=
  | CmdNil
  | Quit
  | LibCmd (id : nat).

(** A goroutine started with [go]; its result is dropped by the runtime. *)
Inductive Goroutine : Type :=
  | GoOpenBrowser (url : string).

(** One record written to a logger. *)
Inductive LogRecord : Type :=
  | SlogError (msg key : string) (err : error)
  | CharmLogError (msg key : string) (err : error)
  | LogPrintf (line : string).

Inductive ProgramOption : Type :=
  | WithAltScreen.

#[global] Instance Msg_eq_dec : EqDecision Msg.
Proof. solve_decision. Defined.
#[global] Instance Cmd_eq_dec : EqDecision Cmd.
Proof. solve_decision. Defined.
#[global] Instance Goroutine_eq_dec : EqDecision Goroutine.
Proof. solve_decision. Defined.
#[global] Instance LogRecord_eq_dec : EqDecision LogRecord.
Proof. solve_decision. Defined.

(** Go's [int] is 64 bits wide here; subtraction wraps around. *)
Definition int_wrap (z : Z) : Z := ((z + 2 ^ 63) mod 2 ^ 64 - 2 ^ 63)%Z.
Definition int_sub (a b : Z) : Z := int_wrap (a - b).

Definition newline : string := String (Ascii.ascii_of_nat 10) EmptyString.

(** ** The libraries *)

(** [list.DefaultDelegate], of which the programs set one field. *)
Record DefaultDelegate : Type := mkDefaultDelegate { ShowDescription : bool }.
Definition NewDefaultDelegate : DefaultDelegate := {| ShowDescription := true |}.
Definition set_ShowDescription (b : bool) (d : DefaultDelegate) : DefaultDelegate :=
  {| ShowDescription := b |}.

(** What the programs use of [list.Model] of the bubbles library.
    [list_zero] is the zero value [list.Model{}]; the laws are the ones the
    programs rely on. *)
Class ListWidget : Type := {
  list_Model : Type;
  list_zero : list_Model;
  list_New : list Item -> DefaultDelegate -> Z -> Z -> list_Model;
  list_Items : list_Model -> list Item;
  list_Title : list_Model -> string;
  list_set_Title : string -> list_Model -> list_Model;
  list_SelectedItem : list_Model -> Item;
  list_SetSize : Z -> Z -> list_Model -> list_Model;
  list_Update : Msg -> list_Model -> list_Model * Cmd;
  list_View : list_Model -> string;
  list_zero_Items : list_Items list_zero = [];
  list_zero_Title : list_Title list_zero = "";
  list_New_Items : forall items d w h, list_Items (list_New items d w h) = items;
  list_set_Title_Title : forall t l, list_Title (list_set_Title t l) = t;
  list_set_Title_Items : forall t l, list_Items (list_set_Title t l) = list_Items l;
}.

(** A [lipgloss.Style], as far as the programs use one. *)
Record Style : Type := mkStyle {
  Render : string -> string;
  GetFrameSize : Z * Z;
}.

(** The body of an HTTP response: what [io.ReadAll] reads from it, and the
    error it ends with, if any. *)
Record Body : Type := mkBody {
  body_data : list Byte.byte;
  body_err : option LibErr;
}.

Definition io_ReadAll (b : Body) : list Byte.byte * option LibErr :=
  (body_data b, body_err b).

(** The host and the library calls with an effect or a result the
    programs cannot compute themselves. *)
Record Host : Type := mkHost {
  GOOS : string;
  http_Get : string -> Body * option LibErr;
  xml_Unmarshal : list Byte.byte -> RSS -> RSS * option LibErr;
  exec_Start : string -> list string -> option LibErr;
  glamour_Render : string -> string -> string * option LibErr;
  docStyle : Style;
  modalStyle : Style;
}.

(** On [data] the decoder leaves the channel field [f] of its target as it
    finds it, as it does for an element the document does not have. *)
Definition leaves_field (h : Host) (data : list Byte.byte) (f : RSSFeed -> string)
  : Prop :=
  forall rss : RSS, f (Channel (xml_Unmarshal h data rss).1) = f (Channel rss).

(** The scalar fields of the channel. *)
Definition channel_scalars : list (RSSFeed -> string) :=
  [feed_Title; feed_Link; feed_Description; feed_LastBuildDate].

(** ** What both programs share *)

(** The three values of [runtime.GOOS] that [openBrowser] has a case for. *)
Definition recognized_OS (goos : string) : Prop :=
  goos = "linux" \/ goos = "windows" \/ goos = "darwin".

(** [func openBrowser(url string) error] *)
Definition openBrowser (h : Host) (url : string) : option error :=
  let run (cmd : string) (args : list string) :=
    LibError <$> exec_Start h cmd (args ++ [url]) in
  if String.eqb (GOOS h) "linux" then run "xdg-open" []
  else if String.eqb (GOOS h) "windows" then
    run "rundll32" ["url.dll,FileProtocolHandler"]
  else if String.eqb (GOOS h) "darwin" then run "open" []
  else Some (Errorf "unsupported platform").

(** What a goroutine does once it runs. *)
Definition run_goroutine (h : Host) (g : Goroutine) : option error :=
  match g with
  | GoOpenBrowser url => openBrowser h url
  end.

(** The markdown that [View] hands to glamour: the [fmt.Sprintf] call. *)
Definition detailMarkdown (r : rssListItem) : string :=
  "# " +:+ title r +:+ newline +:+ newline +:+
  desc r +:+ newline +:+ newline +:+
  "[Source](" +:+ link r +:+ ")" +:+ newline +:+ newline +:+
  "*Press 'o' to open in browser, press Esc to go back.*".

(** [type model struct] *)
Record model `{ListWidget} : Type := mkModel {
  m_list : list_Model;
  showDetail : bool;
  selected : rssListItem;
}.

Section Model.
Context `{W : ListWidget}.

(** The zero value [model{}]. *)
Definition model_zero : model :=
  {| m_list := list_zero; showDetail := false; selected := rssListItem_zero |}.

(** [model{list: l}] *)
Definition model_of_list (l : list_Model) : model :=
  {| m_list := l; showDetail := false; selected := rssListItem_zero |}.

Definition set_list (l : list_Model) (m : model) : model :=
  {| m_list := l; showDetail := showDetail m; selected := selected m |}.
Definition set_showDetail (b : bool) (m : model) : model :=
  {| m_list := m_list m; showDetail := b; selected := selected m |}.
Definition set_selected (r : rssListItem) (m : model) : model :=
  {| m_list := m_list m; showDetail := showDetail m; selected := r |}.

(** The two states of the presentation state machine. *)
Inductive State : Type := Listing | Detail.
Definition state_of (m : model) : State :=
  if showDetail m then Detail else Listing.
End Model.

(** ** The served program, [src/main.go] *)

Module Served.
Section Served.
Context `{W : ListWidget} (h : Host).

Definition host : string := "localhost".
Definition port : string := "23234".
Definition feedURL : string := "https://rss.politico.com/playbook.xml".

(** [func scrapeUrlFeed(url string) (RSSFeed, error)] *)
Definition scrapeUrlFeed (url : string) : RSSFeed * option error :=
  let '(resp, err) := http_Get h url in
  match err with
  | Some e => (RSSFeed_zero, Some (LibError e))
  | None =>
      let '(data, err) := io_ReadAll resp in
      match err with
      | Some e => (RSSFeed_zero, Some (LibError e))
      | None =>
          let rss := RSS_zero in
          let '(rss, err) := xml_Unmarshal h data rss in
          match err with
          | Some e => (RSSFeed_zero, Some (LibError e))
          | None => (Channel rss, None)
          end
      end
  end.

(** [func (m model) Init() tea.Cmd] *)
Definition Init (m : model) : Cmd := CmdNil.

(** [func (m model) Update(msg tea.Msg) (tea.Model, tea.Cmd)], with the
    goroutines it starts. *)
Definition Update (msg : Msg) (m : model) : model * Cmd * list Goroutine :=
  let after_switch (m : model) :=
    let '(l, cmd) := list_Update msg (m_list m) in
    (set_list l m, cmd, []) in
  match msg with
  | KeyMsg key =>
      if String.eqb key "ctrl+c" || String.eqb key "q" then (m, Quit, [])
      else if String.eqb key "enter" then
        match asRssListItem (list_SelectedItem (m_list m)) with
        | Some item =>
            let m := set_showDetail true m in
            let m := set_selected item m in
            (m, CmdNil, [])
        | None => (m, CmdNil, [])
        end
      else if String.eqb key "esc" then
        let m := set_showDetail false m in
        (m, CmdNil, [])
      else if String.eqb key "o" then
        if showDetail m
        then (m, CmdNil, [GoOpenBrowser (link (selected m))])
        else (m, CmdNil, [])
      else after_switch m
  | WindowSizeMsg Width Height =>
      let '(fh, fv) := GetFrameSize (docStyle h) in
      let m :=
        set_list (list_SetSize (int_sub Width fh) (int_sub Height fv) (m_list m)) m in
      after_switch m
  | OtherMsg _ => after_switch m
  end.

(** [func (m model) View() string], with the records it logs. *)
Definition View (m : model) : string * list LogRecord :=
  let listView := Render (docStyle h) (list_View (m_list m)) in
  if showDetail m then
    let '(out, err) := glamour_Render h (detailMarkdown (selected m)) "dark" in
    match err with
    | Some e =>
        (listView, [SlogError "Failed to render markdown" "error" (LibError e)])
    | None =>
        let modal := Render (modalStyle h) out in
        (listView +:+ newline +:+ newline +:+ modal, [])
    end
  else (listView, []).

(** The window of the session's pseudo-terminal, [pty.Window]. *)
Record Window : Type := mkWindow { Width : Z; Height : Z }.

(** [func teaHandler(s ssh.Session) (tea.Model, []tea.ProgramOption)],
    with the records it logs. *)
Definition teaHandler (pty : Window)
  : model * list ProgramOption * list LogRecord :=
  let '(feed, err) := scrapeUrlFeed feedURL in
  match err with
  | Some e =>
      (model_zero, [WithAltScreen], [CharmLogError "Failed to fetch feed" "error" e])
  | None =>
      let delegate := NewDefaultDelegate in
      let delegate := set_ShowDescription true delegate in
      let m :=
        model_of_list
          (list_New (toListItems (feed_Items feed)) delegate (Width pty) (Height pty)) in
      let m := set_list (list_set_Title (feed_Title feed) (m_list m)) m in
      (m, [WithAltScreen], [])
  end.
End Served.
End Served.

(** ** The local program, [src/unnamed/part_000] *)

Module Local.
Section Local.
Context `{W : ListWidget} (h : Host).

(** [func scrapeUrlFeed(url string) (RSSFeed, error)], with the lines it
    prints. *)
Definition scrapeUrlFeed (url : string) : RSSFeed * option error * list string :=
  let out := ["Fetching feed " +:+ url +:+ newline] in
  let '(resp, err) := http_Get h url in
  match err with
  | Some e => (RSSFeed_zero, Some (LibError e), out)
  | None =>
      let '(data, err) := io_ReadAll resp in
      match err with
      | Some e => (RSSFeed_zero, Some (LibError e), out)
      | None =>
          let rss := RSS_zero in
          let '(rss, err) := xml_Unmarshal h data rss in
          match err with
          | Some e => (RSSFeed_zero, Some (LibError e), out)
          | None => (Channel rss, None, out)
          end
      end
  end.

(** [func (m model) Init() tea.Cmd] *)
Definition Init (m : model) : Cmd := CmdNil.

(** [func (m model) Update(msg tea.Msg) (tea.Model, tea.Cmd)], with the
    goroutines it starts. *)
Definition Update (msg : Msg) (m : model) : model * Cmd * list Goroutine :=
  let after_switch (m : model) :=
    let '(l, cmd) := list_Update msg (m_list m) in
    (set_list l m, cmd, []) in
  match msg with
  | KeyMsg key =>
      if String.eqb key "ctrl+c" then (m, Quit, [])
      else if String.eqb key "enter" then
        match asRssListItem (list_SelectedItem (m_list m)) with
        | Some item =>
            let m := set_showDetail true m in
            let m := set_selected item m in
            (m, CmdNil, [])
        | None => (m, CmdNil, [])
        end
      else if String.eqb key "esc" then
        let m := set_showDetail false m in
        (m, CmdNil, [])
      else if String.eqb key "o" then
        if showDetail m
        then (m, CmdNil, [GoOpenBrowser (link (selected m))])
        else (m, CmdNil, [])
      else after_switch m
  | WindowSizeMsg Width Height =>
      let '(fh, fv) := GetFrameSize (docStyle h) in
      let m :=
        set_list (list_SetSize (int_sub Width fh) (int_sub Height fv) (m_list m)) m in
      after_switch m
  | OtherMsg _ => after_switch m
  end.

(** [func (m model) View() string], with the records it logs. *)
Definition View (m : model) : string * list LogRecord :=
  let listView := Render (docStyle h) (list_View (m_list m)) in
  if showDetail m then
    let '(out, err) := glamour_Render h (detailMarkdown (selected m)) "dark" in
    match err with
    | Some e =>
        (listView,
         [LogPrintf ("Failed to render markdown: " +:+ error_Error (LibError e))])
    | None =>
        let modal := Render (modalStyle h) out in
        (listView +:+ newline +:+ newline +:+ modal, [])
    end
  else (listView, []).

(** The start of [func main()]: the model handed to [tea.NewProgram], or
    the record of [log.Fatalf], after which the process exits; with the
    lines printed on the way. *)
Definition main_model : (model + LogRecord) * list string :=
  let url := "https://rss.politico.com/playbook.xml" in
  let '(feed, err, out) := scrapeUrlFeed url in
  match err with
  | Some e => (inr (LogPrintf ("Failed to fetch feed: " +:+ error_Error e)), out)
  | None =>
      let delegate := NewDefaultDelegate in
      let delegate := set_ShowDescription true delegate in
      let out :=
        out ++ ["Fetched " +:+ pretty (length (feed_Items feed)) +:+
                " items from feed" +:+ newline] in
      let m :=
        model_of_list (list_New (toListItems (feed_Items feed)) delegate 0 0) in
      let m := set_list (list_set_Title (feed_Title feed) (m_list m)) m in
      (inl m, out)
  end.
End Local.
End Local.

(** ** The feed printer, the second program of [src/unnamed/part_000] *)

Module Cli.
Section Cli.
Context (h : Host).

(** [func scrapeUrlFeed(url string) (RSSFeed, error)], with the lines it
    prints. *)
Definition scrapeUrlFeed (url : string) : RSSFeed * option error * list string :=
  let out := ["Fetching feed " +:+ url +:+ newline] in
  let '(resp, err) := http_Get h url in
  match err with
  | Some e => (RSSFeed_zero, Some (LibError e), out)
  | None =>
      let '(data, err) := io_ReadAll resp in
      match err with
      | Some e => (RSSFeed_zero, Some (LibError e), out)
      | None =>
          let rss := RSS_zero in
          let '(rss, err) := xml_Unmarshal h data rss in
          match err with
          | Some e => (RSSFeed_zero, Some (LibError e), out)
          | None => (Channel rss, None, out)
          end
      end
  end.

(** The six [fmt.Println] calls of the loop body of [main]. *)
Definition print_item (item : RSSItem) : list string :=
  ["Title: " +:+ item_Title item +:+ newline;
   "Link: " +:+ item_Link item +:+ newline;
   "Description: " +:+ item_Description item +:+ newline;
   "Published: " +:+ item_PublishDate item +:+ newline;
   "Author: " +:+ item_Creator item +:+ newline;
   "-----" +:+ newline].

(** [func main()]: what it writes to the standard output, and the record
    of [log.Fatalf] when it ends that way. *)
Definition main : list string * option LogRecord :=
  let url := "https://rss.politico.com/playbook.xml" in
  let '(feed, err, out) := scrapeUrlFeed url in
  match err with
  | Some e => (out, Some (LogPrintf ("Failed to fetch feed: " +:+ error_Error e)))
  | None =>
      let out := out ++ ["Feed: " +:+ feed_Title feed +:+ newline +:+ newline] in
      let out := foldl (fun out item => out ++ print_item item) out (feed_Items feed) in
      (out, None)
  end.
End Cli.
End Cli.

(** An item with its guid wiped. *)
Definition without_Id (it : RSSItem) : RSSItem :=
  {| item_Title := item_Title it;
     item_Link := item_Link it;
     item_Description := item_Description it;
     item_Id := "";
     item_PublishDate := item_PublishDate it;
     item_Creator := item_Creator it |}.

(** The values of Go's [int]. *)
Definition int_range (z : Z) : Prop := (- 2 ^ 63 <= z < 2 ^ 63)%Z.

(** ** Sessions *)

Section Session.
Context `{W : ListWidget}.
Variable update : Msg -> model -> model * Cmd * list Goroutine.
Variable view : model -> string * list LogRecord.

(** A session starts from [model{}] or from [model{list: ...}]: the
    detail view is closed and the selection is the zero value. *)
Definition initial (m : model) : Prop :=
  showDetail m = false /\ selected m = rssListItem_zero.

(** The model after a run of messages. *)
Fixpoint run (msgs : list Msg) (m : model) : model :=
  match msgs with
  | [] => m
  | msg :: rest => run rest (update msg m).1.1
  end.

(** The models a session started from [m0] passes through. *)
Inductive reachable (m0 : model) : model -> Prop :=
  | reachable_start : reachable m0 m0
  | reachable_step (m : model) (msg : Msg) :
      reachable m0 m -> reachable m0 (update msg m).1.1.

(** What can be seen of one turn of the event loop: the view and its log
    records, and the command and goroutines of the update. *)
Definition Observation : Type :=
  (string * list LogRecord) * option (Cmd * list Goroutine).

(** What can be seen of a session that continues from [m] with [msgs]. *)
Fixpoint observe (msgs : list Msg) (m : model) : list Observation :=
  match msgs with
  | [] => [(view m, None)]
  | msg :: rest =>
      let '(m', cmd, gs) := update msg m in
      (view m, Some (cmd, gs)) :: observe rest m'
  end.

(** The stored selection of [m] is accessible: some continuation of the
    session shows a difference when the field holds another entry. *)
Definition selection_accessible (m : model) : Prop :=
  exists (r : rssListItem) (msgs : list Msg),
    observe msgs (set_selected r m) <> observe msgs m.

(** The entry [r] was the highlighted entry of the list widget at some
    point of the session started from [m0]. *)
Definition was_highlighted (m0 : model) (r : rssListItem) : Prop :=
  exists m, reachable m0 m /\ list_SelectedItem (m_list m) = ItemRss r.

(** Two models that differ at most in a selection that the closed detail
    view hides. *)
Definition same_but_hidden (m m' : model) : Prop :=
  m_list m = m_list m' /\ showDetail m = showDetail m' /\
  (showDetail m = true -> selected m = selected m').
End Session.

(** ** A small list widget and host, to run the programs on *)

Module Ref.
(** The list widget in miniature: the items, the title, the cursor, the
    filter text while the filter is being edited, and the size. *)
Record RefList : Type := mkRefList {
  ref_items : list Item;
  ref_title : string;
  ref_cursor : nat;
  ref_filter : option string;
  ref_width : Z;
  ref_height : Z;
}.

Definition zero : RefList :=
  {| ref_items := []; ref_title := ""; ref_cursor := 0; ref_filter := None;
     ref_width := 0; ref_height := 0 |}.

Definition New (items : list Item) (d : DefaultDelegate) (w h : Z) : RefList :=
  {| ref_items := items; ref_title := "List"; ref_cursor := 0;
     ref_filter := None; ref_width := w; ref_height := h |}.

Definition set_Title (t : string) (l : RefList) : RefList :=
  {| ref_items := ref_items l; ref_title := t; ref_cursor := ref_cursor l;
     ref_filter := ref_filter l; ref_width := ref_width l;
     ref_height := ref_height l |}.

Definition set_cursor (c : nat) (l : RefList) : RefList :=
  {| ref_items := ref_items l; ref_title := ref_title l; ref_cursor := c;
     ref_filter := ref_filter l; ref_width := ref_width l;
     ref_height := ref_height l |}.

Definition set_filter (f : option string) (l : RefList) : RefList :=
  {| ref_items := ref_items l; ref_title := ref_title l;
     ref_cursor := ref_cursor l; ref_filter := f; ref_width := ref_width l;
     ref_height := ref_height l |}.

Definition SetSize (w h : Z) (l : RefList) : RefList :=
  {| ref_items := ref_items l; ref_title := ref_title l;
     ref_cursor := ref_cursor l; ref_filter := ref_filter l;
     ref_width := w; ref_height := h |}.

(** The item under the cursor, nil when there is none. *)
Definition SelectedItem (l : RefList) : Item :=
  match ref_items l !! ref_cursor l with
  | Some x => x
  | None => ItemNil
  end.

(** Keys: "ctrl+c" quits; while the filter is edited a one-character key
    is typed into it; otherwise "q" quits, "/" starts the filter and
    "down" and "up" move the cursor. *)
Definition Update (msg : Msg) (l : RefList) : RefList * Cmd :=
  match msg with
  | KeyMsg key =>
      if String.eqb key "ctrl+c" then (l, Quit)
      else match ref_filter l with
           | Some txt =>
               if Nat.eqb (String.length key) 1
               then (set_filter (Some (txt +:+ key)) l, CmdNil)
               else (l, CmdNil)
           | None =>
               if String.eqb key "q" then (l, Quit)
               else if String.eqb key "/" then (set_filter (Some "") l, CmdNil)
               else if String.eqb key "down" then
                 (if Nat.ltb (S (ref_cursor l)) (length (ref_items l))
                  then set_cursor (S (ref_cursor l)) l else l, CmdNil)
               else if String.eqb key "up" then
                 (set_cursor (pred (ref_cursor l)) l, CmdNil)
               else (l, CmdNil)
           end
  | _ => (l, CmdNil)
  end.

Definition item_line (x : Item) : string :=
  match x with
  | ItemRss r => rssListItem_Title r +:+ newline
  | _ => newline
  end.

Definition View (l : RefList) : string :=
  ref_title l +:+ newline +:+
  foldr (fun x acc => item_line x +:+ acc) "" (ref_items l).

#[global] Instance widget : ListWidget := {|
  list_Model := RefList;
  list_zero := zero;
  list_New := New;
  list_Items := ref_items;
  list_Title := ref_title;
  list_set_Title := set_Title;
  list_SelectedItem := SelectedItem;
  list_SetSize := SetSize;
  list_Update := Update;
  list_View := View;
  list_zero_Items := eq_refl;
  list_zero_Title := eq_refl;
  list_New_Items := fun _ _ _ _ => eq_refl;
  list_set_Title_Title := fun _ _ => eq_refl;
  list_set_Title_Items := fun _ _ => eq_refl;
|}.

Definition plain : Style := {| Render := fun s => s; GetFrameSize := (0, 0)%Z |}.
Definition boxed : Style :=
  {| Render := fun s => "[" +:+ s +:+ "]"; GetFrameSize := (2, 2)%Z |}.

(** The decoder of this host knows one document, the single byte [x31],
    for a feed of two items; on every other input it fails after it has
    written the channel title and the first item. *)
Definition item_A : RSSItem :=
  {| item_Title := "A"; item_Link := "http://a"; item_Description := "first";
     item_Id := "1"; item_PublishDate := "Mon"; item_Creator := "ann" |}.
Definition item_B : RSSItem :=
  {| item_Title := "B"; item_Link := "http://b"; item_Description := "second";
     item_Id := "2"; item_PublishDate := "Tue"; item_Creator := "bob" |}.
Definition feed_AB : RSSFeed :=
  {| feed_Title := "Playbook"; feed_Link := ""; feed_Description := "";
     feed_LastBuildDate := ""; feed_Items := [item_A; item_B] |}.
Definition half_read : RSSFeed :=
  {| feed_Title := "Playbook"; feed_Link := ""; feed_Description := "";
     feed_LastBuildDate := ""; feed_Items := [item_A] |}.

(** Decoding writes the elements the document has into the target and
    leaves the other fields of the target as they are. *)
Definition decode_into (t : string) (items : list RSSItem) (rss : RSS) : RSS :=
  {| Channel :=
       {| feed_Title := t;
          feed_Link := feed_Link (Channel rss);
          feed_Description := feed_Description (Channel rss);
          feed_LastBuildDate := feed_LastBuildDate (Channel rss);
          feed_Items := feed_Items (Channel rss) ++ items |} |}.

Definition Unmarshal (data : list Byte.byte) (rss : RSS) : RSS * option LibErr :=
  match data with
  | [Byte.x31] => (decode_into "Playbook" [item_A; item_B] rss, None)
  | _ => (decode_into "Playbook" [item_A] rss,
          Some (mkLibErr "encoding/xml" "XML syntax error: unexpected EOF"))
  end.

(** glamour on this host fails on the markdown of an entry without a
    description. *)
Definition Render_md (r : rssListItem -> string) (md style : string)
  : string * option LibErr :=
  if String.eqb md (r {| title := ""; desc := ""; link := "" |})
  then ("", Some (mkLibErr "glamour" "cannot render"))
  else ("<" +:+ md +:+ ">", None).

(** A host on [goos] whose feed server answers with [data]. *)
Definition host_with (goos : string) (data : list Byte.byte) : Host :=
  {| GOOS := goos;
     http_Get := fun _ => ({| body_data := data; body_err := None |}, None);
     xml_Unmarshal := Unmarshal;
     exec_Start := fun _ _ => None;
     glamour_Render := Render_md detailMarkdown;
     docStyle := plain;
     modalStyle := boxed |}.

(** A host whose feed server cannot be reached. *)
Definition host_offline (goos : string) : Host :=
  {| GOOS := goos;
     http_Get := fun _ =>
       ({| body_data := []; body_err := None |},
        Some (mkLibErr "net/http" "context deadline exceeded"));
     xml_Unmarshal := Unmarshal;
     exec_Start := fun _ _ => None;
     glamour_Render := Render_md detailMarkdown;
     docStyle := plain;
     modalStyle := boxed |}.

Definition entry_A : rssListItem := toListItem item_A.
Definition entry_B : rssListItem := toListItem item_B.

(** A list of the two entries, and the models around it. *)
Definition list_AB : RefList := New [ItemRss entry_A; ItemRss entry_B] NewDefaultDelegate 80 24.
Definition listing_AB : model := model_of_list list_AB.
Definition detail_A : model := set_selected entry_A (set_showDetail true listing_AB).
Definition listing_empty : model := model_zero.
End Ref.

(** * Theorems *)

(** ** The item adapter *)

Lemma toListItems_loop (done_ : list Item) (rest : list RSSItem) :
  foldl (fun l '(i, item) => <[i := ItemRss (toListItem item)]> l)
        (done_ ++ replicate (length rest) ItemNil)
        (imap (fun i => pair (length done_ + i)) rest)
  = done_ ++ map (fun it => ItemRss (toListItem it)) rest.
Proof.
  revert done_.
  induction rest as [|it rest IH]; intros done_; [reflexivity|].
  cbn [imap foldl length replicate map].
  rewrite Nat.add_0_r.
  rewrite insert_app_r_alt by lia.
  rewrite Nat.sub_diag. cbn [insert list_insert].
  replace (done_ ++ ItemRss (toListItem it) :: replicate (length rest) ItemNil)
    with ((done_ ++ [ItemRss (toListItem it)]) ++ replicate (length rest) ItemNil)
    by (rewrite <- app_assoc; reflexivity).
  rewrite (imap_ext _ (fun i => pair (length (done_ ++ [ItemRss (toListItem it)]) + i))).
  - rewrite IH, <- app_assoc. reflexivity.
  - intros i x _. cbn. rewrite length_app. cbn. f_equal. lia.
Qed.

Lemma toListItems_map (items : list RSSItem) :
  toListItems items = map (fun it => ItemRss (toListItem it)) items.
Proof.
  unfold toListItems.
  exact (toListItems_loop [] items).
Qed.

(** C3: for every sequence of parsed items, the empty one included,
    [toListItems] returns a sequence of the same length whose i-th element
    is the list entry made of the title, description and link of the i-th
    item, and nothing of the guid, publish date or creator of the items
    shows in the result. *)
Theorem toListItems_length_order_verbatim (items : list RSSItem) :
  length (toListItems items) = length items
  /\ (forall i : nat,
        toListItems items !! i
        = (fun it => ItemRss {| title := item_Title it;
                                desc := item_Description it;
                                link := item_Link it |}) <$> items !! i)
  /\ (forall guid pubDate creator : RSSItem -> string,
        toListItems
          (map (fun it => with_meta (guid it) (pubDate it) (creator it) it) items)
        = toListItems items)
  /\ toListItems [] = [].
Proof.
  rewrite toListItems_map.
  split; [apply length_map|].
  split; [intros i; apply list_lookup_fmap|].
  split; [|reflexivity].
  intros guid pubDate creator.
  rewrite toListItems_map, map_map.
  apply map_ext. intros it. reflexivity.
Qed.

(** ** One step of [Update] *)

Section Steps.
Context `{W : ListWidget} (h : Host).

Lemma Served_Update_enter (m : model) :
  Served.Update h (KeyMsg "enter") m
  = match asRssListItem (list_SelectedItem (m_list m)) with
    | Some item => (set_selected item (set_showDetail true m), CmdNil, [])
    | None => (m, CmdNil, [])
    end.
Proof. reflexivity. Qed.

Lemma Local_Update_enter (m : model) :
  Local.Update h (KeyMsg "enter") m
  = match asRssListItem (list_SelectedItem (m_list m)) with
    | Some item => (set_selected item (set_showDetail true m), CmdNil, [])
    | None => (m, CmdNil, [])
    end.
Proof. reflexivity. Qed.

Lemma Served_Update_esc (m : model) :
  Served.Update h (KeyMsg "esc") m = (set_showDetail false m, CmdNil, []).
Proof. reflexivity. Qed.

Lemma Local_Update_esc (m : model) :
  Local.Update h (KeyMsg "esc") m = (set_showDetail false m, CmdNil, []).
Proof. reflexivity. Qed.

Lemma Served_Update_o (m : model) :
  Served.Update h (KeyMsg "o") m
  = (m, CmdNil, if showDetail m then [GoOpenBrowser (link (selected m))] else []).
Proof. cbn. destruct (showDetail m); reflexivity. Qed.

Lemma Local_Update_o (m : model) :
  Local.Update h (KeyMsg "o") m
  = (m, CmdNil, if showDetail m then [GoOpenBrowser (link (selected m))] else []).
Proof. cbn. destruct (showDetail m); reflexivity. Qed.

Lemma asRssListItem_Some (x : Item) (r : rssListItem) :
  asRssListItem x = Some r <-> x = ItemRss r.
Proof. destruct x; cbn; split; congruence. Qed.
End Steps.

(** ** The selection behind a closed detail view *)

Section Hidden.
Context `{W : ListWidget}.
Variable update : Msg -> model -> model * Cmd * list Goroutine.
Variable view : model -> string * list LogRecord.

Hypothesis update_hidden : forall msg m m',
  same_but_hidden m m' ->
  same_but_hidden (update msg m).1.1 (update msg m').1.1
  /\ (update msg m).1.2 = (update msg m').1.2
  /\ (update msg m).2 = (update msg m').2.
Hypothesis view_hidden : forall m m',
  same_but_hidden m m' -> view m = view m'.
Hypothesis update_o : forall m,
  showDetail m = true ->
  (update (KeyMsg "o") m).2 = [GoOpenBrowser (link (selected m))].
Hypothesis update_selected : forall msg m,
  showDetail (update msg m).1.1 = true ->
  (showDetail m = true /\ selected (update msg m).1.1 = selected m)
  \/ list_SelectedItem (m_list m) = ItemRss (selected (update msg m).1.1).

Lemma observe_hidden (msgs : list Msg) : forall m m',
  same_but_hidden m m' -> observe update view msgs m = observe update view msgs m'.
Proof using update_hidden view_hidden.
  induction msgs as [|msg rest IH]; intros m m' Hmm'; cbn [observe].
  - rewrite (view_hidden _ _ Hmm'). reflexivity.
  - destruct (update_hidden msg _ _ Hmm') as (Hnext & Hcmd & Hgs).
    destruct (update msg m) as [[m1 c1] g1], (update msg m') as [[m2 c2] g2].
    cbn in Hnext, Hcmd, Hgs. subst c2 g2.
    rewrite (view_hidden _ _ Hmm'), (IH _ _ Hnext). reflexivity.
Qed.

Lemma closed_not_accessible (m : model) :
  showDetail m = false -> ~ selection_accessible update view m.
Proof using update_hidden view_hidden.
  intros Hclosed (r & msgs & Hdiff). apply Hdiff.
  apply observe_hidden. repeat split; cbn; congruence.
Qed.

Lemma other_entry_link (r : rssListItem) : link (other_entry r) <> link r.
Proof.
  unfold other_entry; cbn.
  destruct (String.eqb_spec (link r) "") as [->|Hne]; congruence.
Qed.

Lemma open_accessible (m : model) :
  showDetail m = true -> selection_accessible update view m.
Proof using update_o.
  intros Hopen.
  exists (other_entry (selected m)), [KeyMsg "o"].
  cbn [observe].
  pose proof (update_o m Hopen) as Hm.
  pose proof (update_o (set_selected (other_entry (selected m)) m) Hopen) as Hm'.
  destruct (update (KeyMsg "o") m) as [[m1 c1] g1].
  destruct (update (KeyMsg "o") (set_selected (other_entry (selected m)) m))
    as [[m2 c2] g2].
  cbn in Hm, Hm'. subst g1 g2.
  intros Heq. injection Heq as _ _ Hlink _.
  exact (other_entry_link _ Hlink).
Qed.

Lemma accessible_iff_open (m : model) :
  selection_accessible update view m <-> showDetail m = true.
Proof using update_hidden view_hidden update_o.
  split; [|apply open_accessible].
  intros Hacc. destruct (showDetail m) eqn:Hs; [reflexivity|].
  exfalso. exact (closed_not_accessible m Hs Hacc).
Qed.

Lemma open_was_highlighted (m0 m : model) :
  initial m0 -> reachable update m0 m ->
  showDetail m = true -> was_highlighted update m0 (selected m).
Proof using update_selected.
  intros [Hclosed _] Hreach.
  induction Hreach as [|m msg Hreach IH]; intros Hopen; [congruence|].
  destruct (update_selected msg m Hopen) as [[Hprev Hsame]|Hcapt].
  - rewrite Hsame. exact (IH Hprev).
  - exists m. split; assumption.
Qed.
End Hidden.

Ltac update_cases :=
  repeat match goal with
         | |- context [String.eqb ?a ?b] => destruct (String.eqb a b)
         | |- context [GetFrameSize ?s] => destruct (GetFrameSize s)
         | |- context [list_Update ?msg ?l] => destruct (list_Update msg l)
         | |- context [asRssListItem ?x] => destruct (asRssListItem x) eqn:?
         end; cbn in *.

Section Programs.
Context `{W : ListWidget} (h : Host).

Lemma Served_update_hidden (msg : Msg) (m m' : model) :
  same_but_hidden m m' ->
  same_but_hidden (Served.Update h msg m).1.1 (Served.Update h msg m').1.1
  /\ (Served.Update h msg m).1.2 = (Served.Update h msg m').1.2
  /\ (Served.Update h msg m).2 = (Served.Update h msg m').2.
Proof.
  destruct m as [l s r], m' as [l' s' r']. intros (Hl & Hs & Hr).
  cbn in Hl, Hs, Hr. subst l' s'.
  unfold Served.Update, same_but_hidden; destruct msg, s; cbn;
    update_cases; repeat split; cbn; auto; try congruence.
  all: rewrite Hr by reflexivity; reflexivity.
Qed.

Lemma Local_update_hidden (msg : Msg) (m m' : model) :
  same_but_hidden m m' ->
  same_but_hidden (Local.Update h msg m).1.1 (Local.Update h msg m').1.1
  /\ (Local.Update h msg m).1.2 = (Local.Update h msg m').1.2
  /\ (Local.Update h msg m).2 = (Local.Update h msg m').2.
Proof.
  destruct m as [l s r], m' as [l' s' r']. intros (Hl & Hs & Hr).
  cbn in Hl, Hs, Hr. subst l' s'.
  unfold Local.Update, same_but_hidden; destruct msg, s; cbn;
    update_cases; repeat split; cbn; auto; try congruence.
  all: rewrite Hr by reflexivity; reflexivity.
Qed.

Lemma Served_view_hidden (m m' : model) :
  same_but_hidden m m' -> Served.View h m = Served.View h m'.
Proof.
  destruct m as [l s r], m' as [l' s' r']. intros (Hl & Hs & Hr).
  cbn in Hl, Hs, Hr. subst l' s'. unfold Served.View; cbn.
  destruct s; [rewrite Hr by reflexivity|]; reflexivity.
Qed.

Lemma Local_view_hidden (m m' : model) :
  same_but_hidden m m' -> Local.View h m = Local.View h m'.
Proof.
  destruct m as [l s r], m' as [l' s' r']. intros (Hl & Hs & Hr).
  cbn in Hl, Hs, Hr. subst l' s'. unfold Local.View; cbn.
  destruct s; [rewrite Hr by reflexivity|]; reflexivity.
Qed.

Lemma Served_update_o (m : model) :
  showDetail m = true ->
  (Served.Update h (KeyMsg "o") m).2 = [GoOpenBrowser (link (selected m))].
Proof. intros Hs. rewrite Served_Update_o, Hs. reflexivity. Qed.

Lemma Local_update_o (m : model) :
  showDetail m = true ->
  (Local.Update h (KeyMsg "o") m).2 = [GoOpenBrowser (link (selected m))].
Proof. intros Hs. rewrite Local_Update_o, Hs. reflexivity. Qed.

Lemma Served_update_selected (msg : Msg) (m : model) :
  showDetail (Served.Update h msg m).1.1 = true ->
  (showDetail m = true /\ selected (Served.Update h msg m).1.1 = selected m)
  \/ list_SelectedItem (m_list m) = ItemRss (selected (Served.Update h msg m).1.1).
Proof.
  destruct m as [l s r].
  unfold Served.Update; destruct msg, s; cbn; update_cases; intros Hopen;
    try (left; split; [assumption|reflexivity]); try discriminate.
  all: right; apply asRssListItem_Some; assumption.
Qed.

Lemma Local_update_selected (msg : Msg) (m : model) :
  showDetail (Local.Update h msg m).1.1 = true ->
  (showDetail m = true /\ selected (Local.Update h msg m).1.1 = selected m)
  \/ list_SelectedItem (m_list m) = ItemRss (selected (Local.Update h msg m).1.1).
Proof.
  destruct m as [l s r].
  unfold Local.Update; destruct msg, s; cbn; update_cases; intros Hopen;
    try (left; split; [assumption|reflexivity]); try discriminate.
  all: right; apply asRssListItem_Some; assumption.
Qed.
End Programs.

(** ** Sessions as runs *)

Lemma reachable_run `{W : ListWidget}
  (update : Msg -> model -> model * Cmd * list Goroutine)
  (msgs : list Msg) : forall m0 m : model,
  reachable update m0 m -> reachable update m0 (run update msgs m).
Proof.
  induction msgs as [|msg rest IH]; intros m0 m Hreach; cbn [run].
  - exact Hreach.
  - apply IH. apply reachable_step. exact Hreach.
Qed.

(** "esc" closes the detail view and writes nothing else: the field
    [selected] keeps the entry it held. *)
Lemma esc_keeps_selected_field `{W : ListWidget} (h : Host) (m : model) :
  selected (Served.Update h (KeyMsg "esc") m).1.1 = selected m
  /\ selected (Local.Update h (KeyMsg "esc") m).1.1 = selected m.
Proof. split; reflexivity. Qed.

(** The local program shows no model when the fetch fails, and starts from
    an initial model with the feed's entries when it succeeds. *)
Lemma Local_main_model_cases `{W : ListWidget} (h : Host) :
  match (Local.main_model h).1 with
  | inl m =>
      exists feed out,
        Local.scrapeUrlFeed h "https://rss.politico.com/playbook.xml"
        = (feed, None, out)
        /\ initial m
        /\ list_Items (m_list m) = toListItems (feed_Items feed)
        /\ list_Title (m_list m) = feed_Title feed
  | inr _ =>
      exists feed e out,
        Local.scrapeUrlFeed h "https://rss.politico.com/playbook.xml"
        = (feed, Some e, out)
  end.
Proof.
  unfold Local.main_model.
  destruct (Local.scrapeUrlFeed h _) as [[feed [e|]] out]; cbn.
  - exists feed, e, out. reflexivity.
  - exists feed, out. split; [reflexivity|]. split; [split; reflexivity|].
    rewrite list_set_Title_Items, list_New_Items, list_set_Title_Title.
    split; reflexivity.
Qed.

(** ** The presentation state machine *)

(** C1: in every state a session of either program reaches, the stored
    selection is accessible exactly when the detail view is open; when it
    is open the selection is an entry the list widget highlighted earlier
    in that session; and after "esc" the detail view is closed and the
    selection is no longer accessible. *)
Theorem selection_accessible_iff_detail_open
  `{W : ListWidget} (h : Host) (m0 m : model) :
  initial m0 ->
  (reachable (Served.Update h) m0 m ->
   (selection_accessible (Served.Update h) (Served.View h) m
    <-> showDetail m = true)
   /\ (showDetail m = true ->
       was_highlighted (Served.Update h) m0 (selected m))
   /\ showDetail (Served.Update h (KeyMsg "esc") m).1.1 = false
   /\ ~ selection_accessible (Served.Update h) (Served.View h)
          (Served.Update h (KeyMsg "esc") m).1.1)
  /\ (reachable (Local.Update h) m0 m ->
      (selection_accessible (Local.Update h) (Local.View h) m
       <-> showDetail m = true)
      /\ (showDetail m = true ->
          was_highlighted (Local.Update h) m0 (selected m))
      /\ showDetail (Local.Update h (KeyMsg "esc") m).1.1 = false
      /\ ~ selection_accessible (Local.Update h) (Local.View h)
             (Local.Update h (KeyMsg "esc") m).1.1).
Proof.
  intros Hinit. split; intros Hreach.
  - split; [|split; [|split]].
    + apply accessible_iff_open;
        auto using Served_update_hidden, Served_view_hidden, Served_update_o.
    + apply open_was_highlighted; auto using Served_update_selected.
    + reflexivity.
    + apply closed_not_accessible;
        auto using Served_update_hidden, Served_view_hidden.
  - split; [|split; [|split]].
    + apply accessible_iff_open;
        auto using Local_update_hidden, Local_view_hidden, Local_update_o.
    + apply open_was_highlighted; auto using Local_update_selected.
    + reflexivity.
    + apply closed_not_accessible;
        auto using Local_update_hidden, Local_view_hidden.
Qed.

Lemma selection_accessible_iff_detail_open_witness :
  initial Ref.listing_AB
  /\ reachable (Served.Update (Ref.host_with "linux" [Byte.x31]))
       Ref.listing_AB Ref.detail_A
  /\ selection_accessible (Served.Update (Ref.host_with "linux" [Byte.x31]))
       (Served.View (Ref.host_with "linux" [Byte.x31])) Ref.detail_A
  /\ was_highlighted (Served.Update (Ref.host_with "linux" [Byte.x31]))
       Ref.listing_AB Ref.entry_A.
Proof.
  assert (Hinit : initial Ref.listing_AB) by (split; reflexivity).
  assert (Hreach : reachable (Served.Update (Ref.host_with "linux" [Byte.x31]))
                     Ref.listing_AB Ref.detail_A)
    by exact (reachable_step _ _ Ref.listing_AB (KeyMsg "enter")
                (reachable_start _ _)).
  split; [exact Hinit|]. split; [exact Hreach|].
  destruct (selection_accessible_iff_detail_open
              (Ref.host_with "linux" [Byte.x31]) Ref.listing_AB Ref.detail_A Hinit)
    as [Hserved _].
  destruct (Hserved Hreach) as (Hiff & Hhigh & _).
  split; [apply Hiff; reflexivity|exact (Hhigh eq_refl)].
Defined.

(** C9: when the highlighted item of the list widget is not a list entry
    (it is nil, as on an empty list, or of another type), "enter" returns
    the model as it was, with no command and no goroutine: the state, the
    detail flag and the stored selection are the ones before. *)
Theorem enter_without_entry_is_noop `{W : ListWidget} (h : Host) (m : model) :
  asRssListItem (list_SelectedItem (m_list m)) = None ->
  Served.Update h (KeyMsg "enter") m = (m, CmdNil, [])
  /\ Local.Update h (KeyMsg "enter") m = (m, CmdNil, [])
  /\ state_of (Served.Update h (KeyMsg "enter") m).1.1 = state_of m
  /\ state_of (Local.Update h (KeyMsg "enter") m).1.1 = state_of m.
Proof.
  intros Hnone.
  rewrite Served_Update_enter, Local_Update_enter, Hnone.
  repeat split.
Qed.

Lemma enter_without_entry_is_noop_witness :
  asRssListItem (list_SelectedItem (m_list Ref.listing_empty)) = None
  /\ Served.Update (Ref.host_offline "linux") (KeyMsg "enter") Ref.listing_empty
     = (Ref.listing_empty, CmdNil, []).
Proof.
  split; [reflexivity|].
  exact (proj1 (enter_without_entry_is_noop (Ref.host_offline "linux")
                  Ref.listing_empty eq_refl)).
Defined.

(** C10: "enter" is handled in the detail state too: when the detail view
    is open and the highlighted item of the list widget is a list entry,
    "enter" stores that entry as the selection and leaves the detail view
    open; the list widget is not touched. *)
Theorem enter_in_detail_recaptures
  `{W : ListWidget} (h : Host) (m : model) (r : rssListItem) :
  state_of m = Detail ->
  list_SelectedItem (m_list m) = ItemRss r ->
  Served.Update h (KeyMsg "enter") m = (set_selected r m, CmdNil, [])
  /\ Local.Update h (KeyMsg "enter") m = (set_selected r m, CmdNil, [])
  /\ selected (set_selected r m) = r
  /\ state_of (set_selected r m) = Detail
  /\ m_list (set_selected r m) = m_list m.
Proof.
  intros Hdetail Hsel.
  assert (Hopen : showDetail m = true).
  { unfold state_of in Hdetail. destruct (showDetail m); congruence. }
  rewrite Served_Update_enter, Local_Update_enter, Hsel. cbn.
  destruct m as [l s sel]. cbn in Hopen. subst s.
  repeat split.
Qed.

Lemma enter_in_detail_recaptures_witness :
  let m := set_list (W := Ref.widget) (Ref.set_cursor 1 Ref.list_AB) Ref.detail_A in
  state_of m = Detail
  /\ list_SelectedItem (m_list m) = ItemRss Ref.entry_B
  /\ selected m = Ref.entry_A
  /\ Served.Update (Ref.host_with "linux" [Byte.x31]) (KeyMsg "enter") m
     = (set_selected Ref.entry_B m, CmdNil, []).
Proof.
  intros m. split; [reflexivity|]. split; [reflexivity|]. split; [reflexivity|].
  exact (proj1 (enter_in_detail_recaptures (Ref.host_with "linux" [Byte.x31])
                  m Ref.entry_B eq_refl eq_refl)).
Defined.

(** C2 as stated fails: the model a served session starts from when the
    feed cannot be fetched is in the listing state, and "enter" leaves it
    there, since the list widget has no highlighted entry to capture. *)
Lemma enter_on_empty_listing_stays_listing :
  let h := Ref.host_offline "linux" in
  let m := (Served.teaHandler h {| Served.Width := 80; Served.Height := 24 |}).1.1 in
  state_of m = Listing
  /\ ~ (state_of (Served.Update h (KeyMsg "enter") m).1.1 = Detail
        /\ list_SelectedItem (m_list m)
           = ItemRss (selected (Served.Update h (KeyMsg "enter") m).1.1)).
Proof.
  intros h m. split; [reflexivity|].
  intros [Hdetail _]. vm_compute in Hdetail. discriminate.
Qed.

(** C2, amended: from the listing state, "enter" yields the detail state
    with the highlighted entry as the selection whenever the highlighted
    item of the list widget is a list entry, and leaves the model as it
    was when it is not; from the detail state, "esc" yields the listing
    state, where the selection is no longer accessible. *)
Theorem enter_and_esc_transitions
  `{W : ListWidget} (h : Host) (m : model) :
  (state_of m = Listing ->
   (forall r : rssListItem,
      list_SelectedItem (m_list m) = ItemRss r ->
      state_of (Served.Update h (KeyMsg "enter") m).1.1 = Detail
      /\ selected (Served.Update h (KeyMsg "enter") m).1.1 = r
      /\ state_of (Local.Update h (KeyMsg "enter") m).1.1 = Detail
      /\ selected (Local.Update h (KeyMsg "enter") m).1.1 = r)
   /\ (asRssListItem (list_SelectedItem (m_list m)) = None ->
       (Served.Update h (KeyMsg "enter") m).1.1 = m
       /\ (Local.Update h (KeyMsg "enter") m).1.1 = m))
  /\ (state_of m = Detail ->
      state_of (Served.Update h (KeyMsg "esc") m).1.1 = Listing
      /\ ~ selection_accessible (Served.Update h) (Served.View h)
             (Served.Update h (KeyMsg "esc") m).1.1
      /\ state_of (Local.Update h (KeyMsg "esc") m).1.1 = Listing
      /\ ~ selection_accessible (Local.Update h) (Local.View h)
             (Local.Update h (KeyMsg "esc") m).1.1).
Proof.
  split.
  - intros _. split.
    + intros r Hsel.
      rewrite Served_Update_enter, Local_Update_enter, Hsel.
      repeat split.
    + intros Hnone.
      rewrite Served_Update_enter, Local_Update_enter, Hnone.
      split; reflexivity.
  - intros _.
    rewrite Served_Update_esc, Local_Update_esc.
    split; [reflexivity|]. split; [|split; [reflexivity|]].
    + apply closed_not_accessible;
        auto using Served_update_hidden, Served_view_hidden.
    + apply closed_not_accessible;
        auto using Local_update_hidden, Local_view_hidden.
Qed.

Lemma enter_and_esc_transitions_witness :
  let h := Ref.host_with "linux" [Byte.x31] in
  (state_of Ref.listing_AB = Listing
   /\ list_SelectedItem (m_list Ref.listing_AB) = ItemRss Ref.entry_A
   /\ state_of (Served.Update h (KeyMsg "enter") Ref.listing_AB).1.1 = Detail
   /\ selected (Served.Update h (KeyMsg "enter") Ref.listing_AB).1.1 = Ref.entry_A)
  /\ (state_of Ref.detail_A = Detail
      /\ state_of (Served.Update h (KeyMsg "esc") Ref.detail_A).1.1 = Listing).
Proof.
  intros h. split.
  - split; [reflexivity|]. split; [reflexivity|].
    destruct (proj1 (proj1 (enter_and_esc_transitions h Ref.listing_AB) eq_refl)
                Ref.entry_A eq_refl) as (H1 & H2 & _).
    split; assumption.
  - split; [reflexivity|].
    exact (proj1 (proj2 (enter_and_esc_transitions h Ref.detail_A) eq_refl)).
Defined.

(** ** The two programs side by side *)

(** C5 as stated fails: while the filter of the list is edited, "q" ends
    the served session and is typed into the filter by the local one. *)
Lemma q_differs_between_modes :
  let h := Ref.host_with "linux" [Byte.x31] in
  let m := model_of_list (W := Ref.widget) (Ref.set_filter (Some "") Ref.list_AB) in
  Served.Update h (KeyMsg "q") m <> Local.Update h (KeyMsg "q") m.
Proof. intros h m. vm_compute. discriminate. Qed.

(** C5, amended: for every state and every message other than the key
    "q", the two programs' [Update] give the same model, command and
    goroutines, and for every state their [View] give the same text.  On
    "q" the served program quits at once, while the local program hands
    the key to the list widget like any key it does not bind. *)
Theorem modes_agree_except_on_q
  `{W : ListWidget} (h : Host) (msg : Msg) (m : model) :
  (msg <> KeyMsg "q" -> Served.Update h msg m = Local.Update h msg m)
  /\ (Served.View h m).1 = (Local.View h m).1
  /\ Served.Update h (KeyMsg "q") m = (m, Quit, [])
  /\ Local.Update h (KeyMsg "q") m
     = (set_list (list_Update (KeyMsg "q") (m_list m)).1 m,
        (list_Update (KeyMsg "q") (m_list m)).2, []).
Proof.
  split; [|split; [|split]].
  - intros Hq. destruct msg as [key| |]; try reflexivity.
    unfold Served.Update, Local.Update.
    destruct (String.eqb_spec key "ctrl+c") as [->|_]; [reflexivity|].
    destruct (String.eqb_spec key "q") as [->|_]; [congruence|].
    reflexivity.
  - unfold Served.View, Local.View.
    destruct (showDetail m); [|reflexivity].
    destruct (glamour_Render h _ _) as [out [e|]]; reflexivity.
  - reflexivity.
  - cbn. destruct (list_Update (KeyMsg "q") (m_list m)). reflexivity.
Qed.

Lemma modes_agree_except_on_q_witness :
  KeyMsg "down" <> KeyMsg "q"
  /\ Served.Update (Ref.host_with "linux" [Byte.x31]) (KeyMsg "down") Ref.listing_AB
     = Local.Update (Ref.host_with "linux" [Byte.x31]) (KeyMsg "down") Ref.listing_AB.
Proof.
  assert (Hne : KeyMsg "down" <> KeyMsg "q") by discriminate.
  split; [exact Hne|].
  exact (proj1 (modes_agree_except_on_q (Ref.host_with "linux" [Byte.x31])
                  (KeyMsg "down") Ref.listing_AB) Hne).
Defined.

(** ** The served session handler *)

(** C6: when fetching the feed fails, [teaHandler] still returns a model
    and the program options of a session: the model is [model{}], whose
    list has no entries and an empty title and whose detail view is
    closed; the failure goes to the log. *)
Theorem teaHandler_fetch_failure
  `{W : ListWidget} (h : Host) (pty : Served.Window) (feed : RSSFeed) (e : error) :
  Served.scrapeUrlFeed h Served.feedURL = (feed, Some e) ->
  Served.teaHandler h pty
  = (model_zero, [WithAltScreen],
     [CharmLogError "Failed to fetch feed" "error" e])
  /\ list_Items (m_list (Served.teaHandler h pty).1.1) = []
  /\ list_Title (m_list (Served.teaHandler h pty).1.1) = ""
  /\ showDetail (Served.teaHandler h pty).1.1 = false
  /\ state_of (Served.teaHandler h pty).1.1 = Listing.
Proof.
  intros Hfetch.
  assert (Hret : Served.teaHandler h pty
                 = (model_zero, [WithAltScreen],
                    [CharmLogError "Failed to fetch feed" "error" e])).
  { unfold Served.teaHandler. rewrite Hfetch. reflexivity. }
  rewrite Hret. cbn.
  auto using list_zero_Items, list_zero_Title.
Qed.

Lemma teaHandler_fetch_failure_witness :
  let h := Ref.host_offline "linux" in
  let pty := {| Served.Width := 80; Served.Height := 24 |} in
  Served.scrapeUrlFeed h Served.feedURL
  = (RSSFeed_zero, Some (LibError (mkLibErr "net/http" "context deadline exceeded")))
  /\ list_Items (m_list (Served.teaHandler h pty).1.1) = []
  /\ list_Title (m_list (Served.teaHandler h pty).1.1) = "".
Proof.
  intros h pty. split; [reflexivity|].
  destruct (teaHandler_fetch_failure h pty RSSFeed_zero
              (LibError (mkLibErr "net/http" "context deadline exceeded")) eq_refl)
    as (_ & Hitems & Htitle & _).
  split; assumption.
Defined.

(** When the fetch succeeds the session starts in the listing state with
    one entry per item of the feed and the feed's title. *)
Lemma teaHandler_fetch_success
  `{W : ListWidget} (h : Host) (pty : Served.Window) (feed : RSSFeed) :
  Served.scrapeUrlFeed h Served.feedURL = (feed, None) ->
  list_Items (m_list (Served.teaHandler h pty).1.1) = toListItems (feed_Items feed)
  /\ list_Title (m_list (Served.teaHandler h pty).1.1) = feed_Title feed
  /\ initial (Served.teaHandler h pty).1.1.
Proof.
  intros Hfetch. unfold Served.teaHandler. rewrite Hfetch. cbn.
  rewrite list_set_Title_Items, list_New_Items, list_set_Title_Title.
  repeat split.
Qed.

(** ** Rendering *)

(** C7: in the listing state [View] is the list view alone.  In the detail
    state, when glamour renders the markdown of the selection (its title
    as a heading, its description, a link to its source and the key hint),
    [View] is the list view, an empty line and the rendered text inside
    the modal style; when glamour fails, [View] is the list view alone and
    the failure is a log record. *)
Theorem View_listing_detail_fallback
  `{W : ListWidget} (h : Host) (m : model) :
  let listView := Render (docStyle h) (list_View (m_list m)) in
  (state_of m = Listing ->
   Served.View h m = (listView, []) /\ Local.View h m = (listView, []))
  /\ (state_of m = Detail ->
      forall out : string,
        glamour_Render h (detailMarkdown (selected m)) "dark" = (out, None) ->
        Served.View h m
        = (listView +:+ newline +:+ newline +:+ Render (modalStyle h) out, [])
        /\ Local.View h m
           = (listView +:+ newline +:+ newline +:+ Render (modalStyle h) out, []))
  /\ (state_of m = Detail ->
      forall (out : string) (e : LibErr),
        glamour_Render h (detailMarkdown (selected m)) "dark" = (out, Some e) ->
        Served.View h m
        = (listView, [SlogError "Failed to render markdown" "error" (LibError e)])
        /\ Local.View h m
           = (listView, [LogPrintf ("Failed to render markdown: " +:+ err_msg e)]))
  /\ detailMarkdown (selected m)
     = "# " +:+ title (selected m) +:+ newline +:+ newline +:+
       desc (selected m) +:+ newline +:+ newline +:+
       "[Source](" +:+ link (selected m) +:+ ")" +:+ newline +:+ newline +:+
       "*Press 'o' to open in browser, press Esc to go back.*".
Proof.
  intros listView. subst listView.
  unfold state_of, Served.View, Local.View.
  destruct (showDetail m).
  - split; [discriminate|].
    split; [intros _ out Hout; rewrite Hout; split; reflexivity|].
    split; [intros _ out e Hout; rewrite Hout; split; reflexivity|].
    reflexivity.
  - split; [intros _; split; reflexivity|].
    split; [discriminate|]. split; [discriminate|]. reflexivity.
Qed.

Lemma View_listing_detail_fallback_witness :
  let h := Ref.host_with "linux" [Byte.x31] in
  let blank := set_showDetail true Ref.listing_AB in
  (state_of Ref.listing_AB = Listing
   /\ Served.View h Ref.listing_AB = (list_View Ref.list_AB, []))
  /\ (state_of Ref.detail_A = Detail
      /\ glamour_Render h (detailMarkdown Ref.entry_A) "dark"
         = ("<" +:+ detailMarkdown Ref.entry_A +:+ ">", None)
      /\ Served.View h Ref.detail_A
         = (list_View Ref.list_AB +:+ newline +:+ newline +:+
            "[<" +:+ detailMarkdown Ref.entry_A +:+ ">]", []))
  /\ (state_of blank = Detail
      /\ glamour_Render h (detailMarkdown (selected blank)) "dark"
         = ("", Some (mkLibErr "glamour" "cannot render"))
      /\ Local.View h blank
         = (list_View Ref.list_AB,
            [LogPrintf "Failed to render markdown: cannot render"])).
Proof.
  intros h blank. split; [|split].
  - split; [reflexivity|].
    exact (proj1 (proj1 (View_listing_detail_fallback h Ref.listing_AB) eq_refl)).
  - split; [reflexivity|]. split; [reflexivity|].
    exact (proj1 (proj1 (proj2 (View_listing_detail_fallback h Ref.detail_A))
                    eq_refl _ eq_refl)).
  - split; [reflexivity|]. split; [reflexivity|].
    exact (proj2 (proj1 (proj2 (proj2 (View_listing_detail_fallback h blank)))
                    eq_refl _ _ eq_refl)).
Defined.

(** ** The browser launcher *)

Lemma openBrowser_recognized (h : Host) (url : string) :
  recognized_OS (GOOS h) ->
  exists (cmd : string) (args : list string),
    openBrowser h url = LibError <$> exec_Start h cmd (args ++ [url]).
Proof.
  unfold openBrowser.
  intros [Hos|[Hos|Hos]]; rewrite Hos; cbn.
  - exists "xdg-open", []. reflexivity.
  - exists "rundll32", ["url.dll,FileProtocolHandler"]. reflexivity.
  - exists "open", []. reflexivity.
Qed.

(** What the goroutine started on "o" comes to on a host without a case
    in [openBrowser]: the error stays in the goroutine. *)
Lemma run_goroutine_unsupported (h : Host) (url : string) :
  ~ recognized_OS (GOOS h) ->
  run_goroutine h (GoOpenBrowser url) = Some (Errorf "unsupported platform").
Proof.
  intros Hos. unfold run_goroutine, openBrowser, recognized_OS in *.
  destruct (String.eqb_spec (GOOS h) "linux"); [tauto|].
  destruct (String.eqb_spec (GOOS h) "windows"); [tauto|].
  destruct (String.eqb_spec (GOOS h) "darwin"); [tauto|].
  reflexivity.
Qed.

(** C8: [openBrowser] returns the "unsupported platform" error exactly
    when the host OS is none of linux, windows and darwin.  On "o",
    [Update] returns the model as it was with no command; it starts
    [openBrowser] in a goroutine on the selection's link when the detail
    view is open and does nothing when it is closed, so that nothing the
    launcher returns, on any host, reaches the model, the command or the
    view. *)
Theorem openBrowser_unsupported_iff_and_o_key
  `{W : ListWidget} (h : Host) (url : string) (m : model) :
  (openBrowser h url = Some (Errorf "unsupported platform")
   <-> ~ recognized_OS (GOOS h))
  /\ Served.Update h (KeyMsg "o") m
     = (m, CmdNil,
        if showDetail m then [GoOpenBrowser (link (selected m))] else [])
  /\ Local.Update h (KeyMsg "o") m
     = (m, CmdNil,
        if showDetail m then [GoOpenBrowser (link (selected m))] else [])
  /\ (forall h' : Host,
        Served.Update h' (KeyMsg "o") m = Served.Update h (KeyMsg "o") m
        /\ Local.Update h' (KeyMsg "o") m = Local.Update h (KeyMsg "o") m)
  /\ (forall (h' : Host) (m' : model),
        glamour_Render h' = glamour_Render h ->
        docStyle h' = docStyle h -> modalStyle h' = modalStyle h ->
        Served.View h' m' = Served.View h m'
        /\ Local.View h' m' = Local.View h m').
Proof.
  split; [|split; [apply Served_Update_o|split; [apply Local_Update_o|split]]].
  - split.
    + intros Herr Hos.
      destruct (openBrowser_recognized h url Hos) as (cmd & args & Hrun).
      rewrite Hrun in Herr. destruct (exec_Start h cmd (args ++ [url])); discriminate.
    + intros Hos. unfold openBrowser, recognized_OS in *.
      destruct (String.eqb_spec (GOOS h) "linux"); [tauto|].
      destruct (String.eqb_spec (GOOS h) "windows"); [tauto|].
      destruct (String.eqb_spec (GOOS h) "darwin"); [tauto|].
      reflexivity.
  - intros h'. rewrite !Served_Update_o, !Local_Update_o. split; reflexivity.
  - intros h' m' Hg Hd Hm. unfold Served.View, Local.View.
    rewrite Hg, Hd, Hm. split; reflexivity.
Qed.

Lemma openBrowser_unsupported_iff_and_o_key_witness :
  let h := Ref.host_with "plan9" [Byte.x31] in
  ~ recognized_OS (GOOS h)
  /\ openBrowser h "http://a" = Some (Errorf "unsupported platform")
  /\ Served.View (Ref.host_with "linux" [Byte.x31]) Ref.detail_A
     = Served.View h Ref.detail_A.
Proof.
  intros h.
  assert (Hos : ~ recognized_OS (GOOS h)).
  { intros [Hos|[Hos|Hos]]; discriminate. }
  split; [exact Hos|].
  destruct (openBrowser_unsupported_iff_and_o_key h "http://a" Ref.detail_A)
    as (Hiff & _ & _ & _ & Hview).
  split; [exact (proj2 Hiff Hos)|].
  exact (proj1 (Hview (Ref.host_with "linux" [Byte.x31]) Ref.detail_A
                  eq_refl eq_refl eq_refl)).
Defined.

(** ** The feed parser *)

Lemma channel_scalars_zero (f : RSSFeed -> string) :
  In f channel_scalars -> f RSSFeed_zero = "".
Proof.
  intros [<-|[<-|[<-|[<-|[]]]]]; reflexivity.
Qed.

(** X18: once the body of the response is read, whenever the XML decoder
    reports an error [scrapeUrlFeed] returns that error together with the
    zero-value feed, whatever the decoder had written into its target by
    then; and when the decoder reports none, [scrapeUrlFeed] returns the
    decoded channel with no error, in which each of the four scalar fields
    of the channel that the decoder left as it found it is the empty text,
    since decoding starts from [RSS{}]. *)
Theorem scrapeUrlFeed_parse_error_no_partial_feed
  (h : Host) (url : string) (resp : Body) :
  http_Get h url = (resp, None) ->
  body_err resp = None ->
  (forall (rss' : RSS) (e : LibErr),
     xml_Unmarshal h (body_data resp) RSS_zero = (rss', Some e) ->
     Served.scrapeUrlFeed h url = (RSSFeed_zero, Some (LibError e))
     /\ (Local.scrapeUrlFeed h url).1 = (RSSFeed_zero, Some (LibError e)))
  /\ (forall rss' : RSS,
        xml_Unmarshal h (body_data resp) RSS_zero = (rss', None) ->
        Served.scrapeUrlFeed h url = (Channel rss', None)
        /\ (Local.scrapeUrlFeed h url).1 = (Channel rss', None)
        /\ (forall f : RSSFeed -> string,
              In f channel_scalars ->
              leaves_field h (body_data resp) f ->
              f (Served.scrapeUrlFeed h url).1 = ""
              /\ f (Local.scrapeUrlFeed h url).1.1 = "")).
Proof.
  intros Hget Hbody.
  unfold Served.scrapeUrlFeed, Local.scrapeUrlFeed, io_ReadAll.
  rewrite Hget, Hbody. split.
  - intros rss' e Hdec. rewrite Hdec. split; reflexivity.
  - intros rss' Hdec. rewrite Hdec. cbn.
    split; [reflexivity|]. split; [reflexivity|].
    intros f Hf Hleft.
    specialize (Hleft RSS_zero). rewrite Hdec in Hleft. cbn in Hleft.
    rewrite Hleft. split; apply channel_scalars_zero; assumption.
Qed.

Lemma scrapeUrlFeed_parse_error_no_partial_feed_witness :
  let bad := Ref.host_with "linux" [Byte.x3c; Byte.x61; Byte.x3e] in
  let good := Ref.host_with "linux" [Byte.x31] in
  (xml_Unmarshal bad [Byte.x3c; Byte.x61; Byte.x3e] RSS_zero
   = ({| Channel := Ref.half_read |},
      Some (mkLibErr "encoding/xml" "XML syntax error: unexpected EOF"))
   /\ Served.scrapeUrlFeed bad Served.feedURL
      = (RSSFeed_zero,
         Some (LibError (mkLibErr "encoding/xml" "XML syntax error: unexpected EOF"))))
  /\ (Served.scrapeUrlFeed good Served.feedURL = (Ref.feed_AB, None)
      /\ In feed_Link channel_scalars
      /\ leaves_field good [Byte.x31] feed_Link
      /\ feed_Link (Served.scrapeUrlFeed good Served.feedURL).1 = "").
Proof.
  intros bad good. split.
  - split; [reflexivity|].
    exact (proj1 (proj1 (scrapeUrlFeed_parse_error_no_partial_feed
                           bad Served.feedURL _ eq_refl eq_refl) _ _ eq_refl)).
  - assert (Hin : In feed_Link channel_scalars) by (right; left; reflexivity).
    assert (Hleft : leaves_field good [Byte.x31] feed_Link)
      by (intros rss; reflexivity).
    destruct (proj2 (scrapeUrlFeed_parse_error_no_partial_feed
                       good Served.feedURL _ eq_refl eq_refl) _ eq_refl)
      as (Hret & _ & Hfields).
    split; [exact Hret|]. split; [exact Hin|]. split; [exact Hleft|].
    exact (proj1 (Hfields feed_Link Hin Hleft)).
Defined.

(** * Further properties of the code *)

(** ** Fetching the feed *)

Lemma scrapeUrlFeed_copies_agree_aux (h : Host) (url : string) :
  (Local.scrapeUrlFeed h url).1 = Served.scrapeUrlFeed h url
  /\ (Local.scrapeUrlFeed h url).2 = ["Fetching feed " +:+ url +:+ newline].
Proof.
  unfold Local.scrapeUrlFeed, Served.scrapeUrlFeed, io_ReadAll.
  destruct (http_Get h url) as [resp [e|]]; [split; reflexivity|].
  destruct (body_err resp) as [e|]; [split; reflexivity|].
  destruct (xml_Unmarshal h (body_data resp) RSS_zero) as [rss [e|]];
    split; reflexivity.
Qed.

(** X1: The three copies of [scrapeUrlFeed] return the same feed and error; the
    two of [src/unnamed/part_000] print one line, the URL they fetch, on
    every path. *)
Theorem scrapeUrlFeed_copies_agree (h : Host) (url : string) :
  (Local.scrapeUrlFeed h url).1 = Served.scrapeUrlFeed h url
  /\ (Cli.scrapeUrlFeed h url).1 = Served.scrapeUrlFeed h url
  /\ (Local.scrapeUrlFeed h url).2 = ["Fetching feed " +:+ url +:+ newline]
  /\ (Cli.scrapeUrlFeed h url).2 = ["Fetching feed " +:+ url +:+ newline].
Proof.
  unfold Local.scrapeUrlFeed, Cli.scrapeUrlFeed, Served.scrapeUrlFeed, io_ReadAll.
  destruct (http_Get h url) as [resp [e|]]; [repeat split|].
  destruct (body_err resp) as [e|]; [repeat split|].
  destruct (xml_Unmarshal h (body_data resp) RSS_zero) as [rss [e|]]; repeat split.
Qed.

(** X2: Whatever fails, the request, the reading of the body or the decoding,
    the error [scrapeUrlFeed] returns is the library's and the feed beside
    it is the zero value: no title, no items. *)
Theorem scrapeUrlFeed_error_zero_feed
  (h : Host) (url : string) (feed : RSSFeed) (e : error) :
  Served.scrapeUrlFeed h url = (feed, Some e) ->
  feed = RSSFeed_zero
  /\ feed_Items feed = []
  /\ exists le : LibErr,
       e = LibError le
       /\ ((http_Get h url).2 = Some le
           \/ ((http_Get h url).2 = None
               /\ body_err (http_Get h url).1 = Some le)
           \/ ((http_Get h url).2 = None
               /\ body_err (http_Get h url).1 = None
               /\ (xml_Unmarshal h (body_data (http_Get h url).1) RSS_zero).2
                  = Some le)).
Proof.
  unfold Served.scrapeUrlFeed, io_ReadAll.
  destruct (http_Get h url) as [resp [e1|]]; cbn.
  { intros [= <- <-]. split; [reflexivity|]. split; [reflexivity|].
    exists e1. split; [reflexivity|]. left. reflexivity. }
  destruct (body_err resp) as [e2|] eqn:Hbody.
  { intros [= <- <-]. split; [reflexivity|]. split; [reflexivity|].
    exists e2. split; [reflexivity|]. right. left. split; reflexivity. }
  destruct (xml_Unmarshal h (body_data resp) RSS_zero) as [rss [e3|]]; cbn.
  { intros [= <- <-]. split; [reflexivity|]. split; [reflexivity|].
    exists e3. split; [reflexivity|]. right. right. repeat split. }
  discriminate.
Qed.

Lemma scrapeUrlFeed_error_zero_feed_witness :
  let h := Ref.host_with "linux" [] in
  Served.scrapeUrlFeed h Served.feedURL
  = (RSSFeed_zero,
     Some (LibError (mkLibErr "encoding/xml" "XML syntax error: unexpected EOF")))
  /\ RSSFeed_zero = RSSFeed_zero
  /\ feed_Items RSSFeed_zero = [].
Proof.
  intros h. split; [reflexivity|].
  destruct (scrapeUrlFeed_error_zero_feed h Served.feedURL _ _ eq_refl)
    as (Hz & Hitems & _).
  split; assumption.
Defined.

(** X3: When the request fails, or the body cannot be read to its end, the
    decoder has no part in the result: [scrapeUrlFeed] returns the same on
    a host with any other decoder. *)
Theorem scrapeUrlFeed_transport_error_skips_decoder
  (h : Host) (url : string) (le : LibErr)
  (decoder : list Byte.byte -> RSS -> RSS * option LibErr) :
  (http_Get h url).2 = Some le
  \/ ((http_Get h url).2 = None /\ body_err (http_Get h url).1 = Some le) ->
  Served.scrapeUrlFeed h url = (RSSFeed_zero, Some (LibError le))
  /\ Served.scrapeUrlFeed
       {| GOOS := GOOS h; http_Get := http_Get h; xml_Unmarshal := decoder;
          exec_Start := exec_Start h; glamour_Render := glamour_Render h;
          docStyle := docStyle h; modalStyle := modalStyle h |} url
     = (RSSFeed_zero, Some (LibError le)).
Proof.
  unfold Served.scrapeUrlFeed, io_ReadAll; cbn.
  destruct (http_Get h url) as [resp [e1|]]; cbn.
  - intros [[= ->]|[[=] _]]. split; reflexivity.
  - intros [[=]|[_ Hbody]]. rewrite Hbody. split; reflexivity.
Qed.

Lemma scrapeUrlFeed_transport_error_skips_decoder_witness :
  let h := Ref.host_offline "linux" in
  (http_Get h Served.feedURL).2 = Some (mkLibErr "net/http" "context deadline exceeded")
  /\ Served.scrapeUrlFeed h Served.feedURL
     = (RSSFeed_zero, Some (LibError (mkLibErr "net/http" "context deadline exceeded"))).
Proof.
  intros h. split; [reflexivity|].
  exact (proj1 (scrapeUrlFeed_transport_error_skips_decoder h Served.feedURL _
                  (fun _ rss => (rss, None)) (or_introl eq_refl))).
Defined.

(** ** The entries of the list *)

Lemma toListItems_app (a b : list RSSItem) :
  toListItems (a ++ b) = toListItems a ++ toListItems b.
Proof. rewrite !toListItems_map. apply map_app. Qed.

(** X4: The loop of [toListItems] leaves no nil in the slice: every element is
    an [rssListItem], so the type assertion of [Update] succeeds on it; and
    the entries of two feeds put together are the entries of the first
    followed by those of the second. *)
Theorem toListItems_entries_pass_assertion (a b : list RSSItem) :
  Forall (fun x => exists r, asRssListItem x = Some r
                             /\ rssListItem_FilterValue r = rssListItem_Title r)
         (toListItems a)
  /\ ~ In ItemNil (toListItems a)
  /\ toListItems (a ++ b) = toListItems a ++ toListItems b.
Proof.
  split; [|split; [|apply toListItems_app]].
  - rewrite toListItems_map. apply Forall_forall. intros x Hx.
    apply list_elem_of_In, in_map_iff in Hx. destruct Hx as (it & <- & _).
    exists (toListItem it). split; reflexivity.
  - rewrite toListItems_map. intros Hnil.
    apply in_map_iff in Hnil. destruct Hnil as (it & Hit & _). discriminate.
Qed.

(** ** What a message can change *)

Ltac key_cases key :=
  destruct (String.eqb_spec key "ctrl+c") as [->|?];
  [|destruct (String.eqb_spec key "q") as [->|?];
    [|destruct (String.eqb_spec key "enter") as [->|?];
      [|destruct (String.eqb_spec key "esc") as [->|?];
        [|destruct (String.eqb_spec key "o") as [->|?]]]]].

(** X5: Only "enter" and "esc" change the detail flag and only "enter" changes
    the selection: every other message, a resize and the keys of the list
    widget included, leaves both as they are. *)
Theorem Update_keeps_flag_and_selection
  `{W : ListWidget} (h : Host) (msg : Msg) (m : model) :
  msg <> KeyMsg "enter" ->
  (selected (Served.Update h msg m).1.1 = selected m
   /\ selected (Local.Update h msg m).1.1 = selected m)
  /\ (msg <> KeyMsg "esc" ->
      showDetail (Served.Update h msg m).1.1 = showDetail m
      /\ showDetail (Local.Update h msg m).1.1 = showDetail m).
Proof.
  intros Henter. unfold Served.Update, Local.Update.
  destruct msg as [key|w0 h0|id].
  - key_cases key; cbn; try congruence;
      repeat match goal with
             | |- context [showDetail ?x] =>
                 is_var x; destruct (showDetail x) eqn:?
             | |- context [list_Update ?a ?l] => destruct (list_Update a l)
             | |- context [String.eqb ?a ?b] =>
                 destruct (String.eqb_spec a b); try congruence
             end; cbn; repeat split; congruence.
  - destruct (GetFrameSize (docStyle h)), (list_Update _ _); cbn. repeat split.
  - destruct (list_Update _ _); cbn. repeat split.
Qed.

Lemma Update_keeps_flag_and_selection_witness :
  let h := Ref.host_with "linux" [Byte.x31] in
  KeyMsg "down" <> KeyMsg "enter"
  /\ KeyMsg "down" <> KeyMsg "esc"
  /\ selected (Served.Update h (KeyMsg "down") Ref.detail_A).1.1 = Ref.entry_A
  /\ showDetail (Served.Update h (KeyMsg "down") Ref.detail_A).1.1 = true
  /\ list_SelectedItem (m_list (Served.Update h (KeyMsg "down") Ref.detail_A).1.1)
     = ItemRss Ref.entry_B.
Proof.
  intros h.
  assert (H1 : KeyMsg "down" <> KeyMsg "enter") by discriminate.
  assert (H2 : KeyMsg "down" <> KeyMsg "esc") by discriminate.
  split; [exact H1|]. split; [exact H2|].
  destruct (Update_keeps_flag_and_selection h (KeyMsg "down") Ref.detail_A H1)
    as [[Hsel _] Hflag].
  split; [exact Hsel|]. split; [exact (proj1 (Hflag H2))|reflexivity].
Defined.

(** X6: The keys the programs bind never reach the list widget: on "ctrl+c",
    "enter", "esc" and "o" in both programs, and on "q" in the served one,
    [Update] returns the list as it was, whatever the widget would have
    done with the key. *)
Theorem bound_keys_bypass_list
  `{W : ListWidget} (h : Host) (key : string) (m : model) :
  In key ["ctrl+c"; "enter"; "esc"; "o"] ->
  m_list (Served.Update h (KeyMsg key) m).1.1 = m_list m
  /\ m_list (Local.Update h (KeyMsg key) m).1.1 = m_list m
  /\ m_list (Served.Update h (KeyMsg "q") m).1.1 = m_list m
  /\ ((Served.Update h (KeyMsg key) m).1.2 = Quit <-> key = "ctrl+c")
  /\ ((Local.Update h (KeyMsg key) m).1.2 = Quit <-> key = "ctrl+c").
Proof.
  intros [<-|[<-|[<-|[<-|[]]]]]; cbn;
    repeat match goal with
           | |- context [asRssListItem ?x] => destruct (asRssListItem x)
           | |- context [showDetail ?x] => is_var x; destruct (showDetail x)
           end; cbn; repeat split; intros; congruence.
Qed.

Lemma bound_keys_bypass_list_witness :
  let h := Ref.host_with "linux" [Byte.x31] in
  let m := model_of_list (W := Ref.widget) (Ref.set_filter (Some "ab") Ref.list_AB) in
  In "o" ["ctrl+c"; "enter"; "esc"; "o"]
  /\ (list_Update (KeyMsg "o") (m_list m)).1 <> m_list m
  /\ m_list (Local.Update h (KeyMsg "o") m).1.1 = m_list m.
Proof.
  intros h m.
  assert (Hin : In "o" ["ctrl+c"; "enter"; "esc"; "o"]) by (cbn; tauto).
  split; [exact Hin|]. split; [vm_compute; discriminate|].
  exact (proj1 (proj2 (bound_keys_bypass_list h "o" m Hin))).
Defined.

(** X7: A key that the program does not bind, and every message that is
    neither a key nor a resize, goes to the list widget unchanged: the
    next list and the command are the widget's. *)
Theorem unbound_messages_go_to_list
  `{W : ListWidget} (h : Host) (msg : Msg) (m : model) :
  (forall w0 h0, msg <> WindowSizeMsg w0 h0) ->
  ~ In msg (map KeyMsg ["ctrl+c"; "q"; "enter"; "esc"; "o"]) ->
  Served.Update h msg m
  = (set_list (list_Update msg (m_list m)).1 m, (list_Update msg (m_list m)).2, [])
  /\ Local.Update h msg m = Served.Update h msg m.
Proof.
  intros Hsize Hkey. unfold Served.Update, Local.Update.
  destruct msg as [key|w0 h0|id].
  - key_cases key; try (exfalso; apply Hkey; cbn; tauto).
    destruct (list_Update (KeyMsg key) (m_list m)). split; reflexivity.
  - destruct (Hsize w0 h0 eq_refl).
  - destruct (list_Update (OtherMsg id) (m_list m)). split; reflexivity.
Qed.

Lemma unbound_messages_go_to_list_witness :
  let h := Ref.host_with "linux" [Byte.x31] in
  (forall w0 h0, KeyMsg "/" <> WindowSizeMsg w0 h0)
  /\ ~ In (KeyMsg "/") (map KeyMsg ["ctrl+c"; "q"; "enter"; "esc"; "o"])
  /\ Served.Update h (KeyMsg "/") Ref.listing_AB
     = (model_of_list (W := Ref.widget) (Ref.set_filter (Some "") Ref.list_AB),
        CmdNil, []).
Proof.
  intros h.
  assert (H1 : forall w0 h0, KeyMsg "/" <> WindowSizeMsg w0 h0) by discriminate.
  assert (H2 : ~ In (KeyMsg "/") (map KeyMsg ["ctrl+c"; "q"; "enter"; "esc"; "o"])).
  { cbn. intros [H|[H|[H|[H|[H|[]]]]]]; discriminate. }
  split; [exact H1|]. split; [exact H2|].
  exact (proj1 (unbound_messages_go_to_list h (KeyMsg "/") Ref.listing_AB H1 H2)).
Defined.

(** ** Goroutines *)





(** ** Opening and closing the detail view *)

(** X9: From the listing state, "enter" followed by "esc" is without effect on
    anything that can be seen of the rest of the session: the views, the
    log records, the commands and the goroutines are those of a session
    in which the two keys were never pressed. *)
Theorem enter_then_esc_unobservable
  `{W : ListWidget} (h : Host) (m : model) (msgs : list Msg) :
  state_of m = Listing ->
  observe (Served.Update h) (Served.View h) msgs
    (run (Served.Update h) [KeyMsg "enter"; KeyMsg "esc"] m)
  = observe (Served.Update h) (Served.View h) msgs m
  /\ observe (Local.Update h) (Local.View h) msgs
       (run (Local.Update h) [KeyMsg "enter"; KeyMsg "esc"] m)
     = observe (Local.Update h) (Local.View h) msgs m.
Proof.
  intros Hlisting.
  assert (Hclosed : showDetail m = false).
  { unfold state_of in Hlisting. destruct (showDetail m); congruence. }
  cbn [run]. rewrite Served_Update_enter, Local_Update_enter.
  assert (Hhidden :
            same_but_hidden
              (match asRssListItem (list_SelectedItem (m_list m)) with
               | Some item =>
                   (set_showDetail false (set_selected item (set_showDetail true m)))
               | None => set_showDetail false m
               end) m).
  { destruct (asRssListItem _); repeat split; cbn; congruence. }
  split.
  - apply observe_hidden;
      auto using Served_update_hidden, Served_view_hidden.
    destruct (asRssListItem _); exact Hhidden.
  - apply observe_hidden;
      auto using Local_update_hidden, Local_view_hidden.
    destruct (asRssListItem _); exact Hhidden.
Qed.

Lemma enter_then_esc_unobservable_witness :
  let h := Ref.host_with "linux" [Byte.x31] in
  state_of Ref.listing_AB = Listing
  /\ selected (run (Served.Update h) [KeyMsg "enter"; KeyMsg "esc"] Ref.listing_AB)
     <> selected Ref.listing_AB
  /\ observe (Served.Update h) (Served.View h) [KeyMsg "o"; KeyMsg "down"]
       (run (Served.Update h) [KeyMsg "enter"; KeyMsg "esc"] Ref.listing_AB)
     = observe (Served.Update h) (Served.View h) [KeyMsg "o"; KeyMsg "down"]
         Ref.listing_AB.
Proof.
  intros h. split; [reflexivity|]. split; [vm_compute; discriminate|].
  exact (proj1 (enter_then_esc_unobservable h Ref.listing_AB
                  [KeyMsg "o"; KeyMsg "down"] eq_refl)).
Defined.

(** ** Rendering, continued *)

Lemma prefix_append (s t : string) : String.prefix s (s +:+ t) = true.
Proof.
  induction s as [|c s IH].
  - destruct t; reflexivity.
  - change (String c s +:+ t) with (String c (s +:+ t)).
    cbn [String.prefix].
    destruct (Ascii.ascii_dec c c); [exact IH|congruence].
Qed.

Lemma prefix_refl (s : string) : String.prefix s s = true.
Proof.
  induction s as [|c s IH]; [reflexivity|].
  cbn [String.prefix].
  destruct (Ascii.ascii_dec c c); [exact IH|congruence].
Qed.

(** X10: In every state and whatever glamour answers, the text of [View]
    begins with the list view; [View] logs at most one record, and logs
    one only in the detail state when glamour has failed. *)
Theorem View_begins_with_list_view `{W : ListWidget} (h : Host) (m : model) :
  String.prefix (Render (docStyle h) (list_View (m_list m))) (Served.View h m).1 = true
  /\ String.prefix (Render (docStyle h) (list_View (m_list m))) (Local.View h m).1 = true
  /\ length (Served.View h m).2 <= 1
  /\ length (Local.View h m).2 <= 1
  /\ ((Served.View h m).2 <> [] \/ (Local.View h m).2 <> [] ->
      state_of m = Detail
      /\ (glamour_Render h (detailMarkdown (selected m)) "dark").2 <> None).
Proof.
  unfold Served.View, Local.View, state_of.
  destruct (showDetail m); cbn.
  - destruct (glamour_Render h (detailMarkdown (selected m)) "dark") as [out [e|]];
      cbn; rewrite ?prefix_append, ?prefix_refl.
    + split; [reflexivity|]. split; [reflexivity|].
      split; [lia|]. split; [lia|]. intros _. split; [reflexivity|discriminate].
    + split; [reflexivity|]. split; [reflexivity|].
      split; [lia|]. split; [lia|]. intros Hlog. destruct Hlog; congruence.
  - rewrite prefix_refl.
    split; [reflexivity|]. split; [reflexivity|].
    split; [lia|]. split; [lia|]. intros Hlog. destruct Hlog; congruence.
Qed.

(** ** Resizing *)

Lemma int_wrap_in_range (z : Z) : int_range z -> int_wrap z = z.
Proof.
  unfold int_range, int_wrap. intros Hz.
  rewrite Z.mod_small by lia. lia.
Qed.

(** X11: A resize, in either state, sets the list to the window's size less the
    frame of the document style, as long as the differences are values of
    [int], and then hands the message to the list widget; the detail flag
    and the selection stay. *)
Theorem resize_sets_list_size
  `{W : ListWidget} (h : Host) (w0 h0 fh fv : Z) (m : model) :
  GetFrameSize (docStyle h) = (fh, fv) ->
  int_range (w0 - fh) -> int_range (h0 - fv) ->
  let sized := list_SetSize (w0 - fh) (h0 - fv) (m_list m) in
  Served.Update h (WindowSizeMsg w0 h0) m
  = ({| m_list := (list_Update (WindowSizeMsg w0 h0) sized).1;
        showDetail := showDetail m; selected := selected m |},
     (list_Update (WindowSizeMsg w0 h0) sized).2, [])
  /\ Local.Update h (WindowSizeMsg w0 h0) m
     = Served.Update h (WindowSizeMsg w0 h0) m.
Proof.
  intros Hframe Hw Hh sized. subst sized.
  unfold Served.Update, Local.Update, int_sub.
  rewrite Hframe, (int_wrap_in_range _ Hw), (int_wrap_in_range _ Hh).
  destruct (list_Update _ _). split; reflexivity.
Qed.

Lemma resize_sets_list_size_witness :
  let h := Ref.host_with "linux" [Byte.x31] in
  GetFrameSize (docStyle h) = (0, 0)%Z
  /\ int_range (120 - 0) /\ int_range (40 - 0)
  /\ Served.Update h (WindowSizeMsg 120 40) Ref.detail_A
     = (set_list (W := Ref.widget) (Ref.SetSize 120 40 Ref.list_AB) Ref.detail_A,
        CmdNil, []).
Proof.
  intros h.
  assert (Hw : int_range (120 - 0)) by (unfold int_range; lia).
  assert (Hh : int_range (40 - 0)) by (unfold int_range; lia).
  split; [reflexivity|]. split; [exact Hw|]. split; [exact Hh|].
  exact (proj1 (resize_sets_list_size h 120 40 0 0 Ref.detail_A eq_refl Hw Hh)).
Defined.

Lemma View_begins_with_list_view_witness :
  let h := Ref.host_with "linux" [Byte.x31] in
  let blank := set_showDetail true Ref.listing_AB in
  (Local.View h blank).2 <> []
  /\ state_of blank = Detail
  /\ String.prefix (list_View Ref.list_AB) (Served.View h Ref.detail_A).1 = true.
Proof.
  intros h blank.
  assert (Hlog : (Local.View h blank).2 <> []) by (vm_compute; discriminate).
  split; [exact Hlog|].
  destruct (View_begins_with_list_view h blank) as (_ & _ & _ & _ & Hdetail).
  split; [exact (proj1 (Hdetail (or_intror Hlog)))|].
  exact (proj1 (View_begins_with_list_view h Ref.detail_A)).
Defined.

(** ** Starting a session *)

(** X12: Whether the fetch succeeds or not, [teaHandler] hands over a model in
    the listing state with the zero selection, under the one program
    option of the alternate screen; it logs exactly when the fetch failed,
    and [Init] asks for no command. *)
Theorem teaHandler_starts_in_listing
  `{W : ListWidget} (h : Host) (pty : Served.Window) :
  initial (Served.teaHandler h pty).1.1
  /\ state_of (Served.teaHandler h pty).1.1 = Listing
  /\ (Served.teaHandler h pty).1.2 = [WithAltScreen]
  /\ ((Served.teaHandler h pty).2 = []
      <-> (Served.scrapeUrlFeed h Served.feedURL).2 = None)
  /\ Served.Init (Served.teaHandler h pty).1.1 = CmdNil.
Proof.
  unfold Served.teaHandler.
  destruct (Served.scrapeUrlFeed h Served.feedURL) as [feed [e|]]; cbn;
    repeat split; try discriminate; auto.
Qed.

(** X13: When the fetch succeeds the list of the session holds one entry for
    each item of the feed, in the feed's order, under the feed's title;
    and the local program starts from the very model the served one
    builds for a window of no size. *)
Theorem startup_on_fetched_feed
  `{W : ListWidget} (h : Host) (pty : Served.Window) (feed : RSSFeed) :
  Served.scrapeUrlFeed h Served.feedURL = (feed, None) ->
  list_Items (m_list (Served.teaHandler h pty).1.1)
  = map (fun it => ItemRss (toListItem it)) (feed_Items feed)
  /\ length (list_Items (m_list (Served.teaHandler h pty).1.1))
     = length (feed_Items feed)
  /\ list_Title (m_list (Served.teaHandler h pty).1.1) = feed_Title feed
  /\ (Local.main_model h).1
     = inl (Served.teaHandler h {| Served.Width := 0; Served.Height := 0 |}).1.1
  /\ (Local.main_model h).2
     = ["Fetching feed " +:+ Served.feedURL +:+ newline;
        "Fetched " +:+ pretty (length (feed_Items feed)) +:+ " items from feed"
        +:+ newline].
Proof.
  intros Hfetch.
  destruct (teaHandler_fetch_success h pty feed Hfetch) as (Hitems & Htitle & _).
  rewrite Hitems, Htitle, toListItems_map, length_map.
  do 3 (split; [reflexivity|]).
  unfold Local.main_model, Served.teaHandler. rewrite Hfetch.
  destruct (scrapeUrlFeed_copies_agree_aux h Served.feedURL) as [Hsame Hout].
  change "https://rss.politico.com/playbook.xml" with Served.feedURL.
  destruct (Local.scrapeUrlFeed h Served.feedURL) as [[feed' err'] out'].
  cbn in Hsame, Hout. rewrite Hfetch in Hsame. injection Hsame as -> ->.
  subst out'. split; reflexivity.
Qed.

Lemma startup_on_fetched_feed_witness :
  let h := Ref.host_with "linux" [Byte.x31] in
  let pty := {| Served.Width := 80; Served.Height := 24 |} in
  Served.scrapeUrlFeed h Served.feedURL = (Ref.feed_AB, None)
  /\ list_Items (m_list (Served.teaHandler h pty).1.1)
     = [ItemRss Ref.entry_A; ItemRss Ref.entry_B]
  /\ list_Title (m_list (Served.teaHandler h pty).1.1) = "Playbook".
Proof.
  intros h pty. split; [reflexivity|].
  destruct (startup_on_fetched_feed h pty Ref.feed_AB eq_refl)
    as (Hitems & _ & Htitle & _).
  split; assumption.
Defined.

(** X14: When the fetch fails the two programs part: the local one shows no
    model and ends on the record of [log.Fatalf], which carries the text
    of the error, having printed the line of the fetch and no other;
    the served one starts its session on [model{}]. *)
Theorem startup_on_failed_fetch
  `{W : ListWidget} (h : Host) (pty : Served.Window) (feed : RSSFeed) (e : error) :
  Served.scrapeUrlFeed h Served.feedURL = (feed, Some e) ->
  Local.main_model h
  = (inr (LogPrintf ("Failed to fetch feed: " +:+ error_Error e)),
     ["Fetching feed " +:+ Served.feedURL +:+ newline])
  /\ (Served.teaHandler h pty).1.1 = model_zero.
Proof.
  intros Hfetch. split.
  - unfold Local.main_model.
    destruct (scrapeUrlFeed_copies_agree_aux h Served.feedURL) as [Hsame Hout].
    change "https://rss.politico.com/playbook.xml" with Served.feedURL.
    destruct (Local.scrapeUrlFeed h Served.feedURL) as [[feed' err'] out'].
    cbn in Hsame, Hout. rewrite Hfetch in Hsame. injection Hsame as -> ->.
    subst out'. reflexivity.
  - unfold Served.teaHandler. rewrite Hfetch. reflexivity.
Qed.

Lemma startup_on_failed_fetch_witness :
  let h := Ref.host_offline "linux" in
  Served.scrapeUrlFeed h Served.feedURL
  = (RSSFeed_zero, Some (LibError (mkLibErr "net/http" "context deadline exceeded")))
  /\ (Local.main_model (W := Ref.widget) h).1
     = inr (LogPrintf "Failed to fetch feed: context deadline exceeded").
Proof.
  intros h. split; [reflexivity|].
  exact (f_equal fst
           (proj1 (startup_on_failed_fetch (W := Ref.widget) h
                     {| Served.Width := 0; Served.Height := 0 |} _ _ eq_refl))).
Defined.

(** ** The feed printer *)

Lemma Cli_print_loop (items : list RSSItem) : forall out : list string,
  foldl (fun out item => out ++ Cli.print_item item) out items
  = out ++ concat (map Cli.print_item items).
Proof.
  induction items as [|it items IH]; intros out; cbn [foldl map concat].
  - rewrite app_nil_r. reflexivity.
  - rewrite IH, <- app_assoc. reflexivity.
Qed.

Lemma Cli_print_items_length (items : list RSSItem) :
  length (concat (map Cli.print_item items)) = 6 * length items.
Proof.
  induction items as [|it items IH]; [reflexivity|].
  cbn [map concat]. rewrite length_app, IH. cbn [Cli.print_item length]. lia.
Qed.

Lemma Cli_print_item_without_Id (it : RSSItem) :
  Cli.print_item (without_Id it) = Cli.print_item it.
Proof. reflexivity. Qed.

Lemma Cli_print_items_without_Id (items : list RSSItem) :
  map Cli.print_item items = map Cli.print_item (map without_Id items).
Proof.
  induction items as [|it items IH]; [reflexivity|].
  cbn [map]. rewrite <- IH, Cli_print_item_without_Id. reflexivity.
Qed.

Lemma Cli_main_of_fetch (h : Host) :
  Cli.main h
  = match Served.scrapeUrlFeed h Served.feedURL with
    | (feed, Some e) =>
        (["Fetching feed " +:+ Served.feedURL +:+ newline],
         Some (LogPrintf ("Failed to fetch feed: " +:+ error_Error e)))
    | (feed, None) =>
        (["Fetching feed " +:+ Served.feedURL +:+ newline;
          "Feed: " +:+ feed_Title feed +:+ newline +:+ newline]
         ++ concat (map Cli.print_item (feed_Items feed)), None)
    end.
Proof.
  unfold Cli.main, Cli.scrapeUrlFeed, Served.scrapeUrlFeed, io_ReadAll.
  change "https://rss.politico.com/playbook.xml" with Served.feedURL.
  destruct (http_Get h Served.feedURL) as [resp [e|]]; [reflexivity|].
  destruct (body_err resp) as [e|]; [reflexivity|].
  destruct (xml_Unmarshal h (body_data resp) RSS_zero) as [rss [e|]];
    [reflexivity|].
  rewrite Cli_print_loop. reflexivity.
Qed.

(** X15: On a fetched feed of N items the printer writes 2 + 6 N pieces: the
    line of the fetch, the feed's title, then for each item in the feed's
    order its title, link, description, publish date, creator and a rule;
    on a failed fetch it writes the line of the fetch and ends on the
    record of [log.Fatalf]. *)
Theorem Cli_main_output (h : Host) :
  (forall feed : RSSFeed,
     Served.scrapeUrlFeed h Served.feedURL = (feed, None) ->
     Cli.main h
     = (["Fetching feed " +:+ Served.feedURL +:+ newline;
         "Feed: " +:+ feed_Title feed +:+ newline +:+ newline]
        ++ concat (map Cli.print_item (feed_Items feed)), None)
     /\ length (Cli.main h).1 = 2 + 6 * length (feed_Items feed)
     /\ forall (i : nat) (it : RSSItem),
          feed_Items feed !! i = Some it ->
          (Cli.main h).1 !! (2 + 6 * i)
          = Some ("Title: " +:+ item_Title it +:+ newline))
  /\ (forall (feed : RSSFeed) (e : error),
        Served.scrapeUrlFeed h Served.feedURL = (feed, Some e) ->
        Cli.main h
        = (["Fetching feed " +:+ Served.feedURL +:+ newline],
           Some (LogPrintf ("Failed to fetch feed: " +:+ error_Error e)))).
Proof.
  rewrite Cli_main_of_fetch. split.
  - intros feed ->. split; [reflexivity|]. cbn [fst].
    split.
    + rewrite length_app, Cli_print_items_length. reflexivity.
    + intros i it Hit.
      change (2 + 6 * i) with (length ["Fetching feed " +:+ Served.feedURL +:+ newline;
                                       "Feed: " +:+ feed_Title feed +:+ newline +:+ newline]
                               + 6 * i).
      rewrite lookup_app_r by (cbn; lia).
      replace (_ + 6 * i - _) with (6 * i) by (cbn; lia).
      clear - Hit. revert i Hit.
      induction (feed_Items feed) as [|x items IH]; intros i Hit; [discriminate|].
      destruct i as [|i].
      * injection Hit as ->. reflexivity.
      * cbn [map concat].
        rewrite lookup_app_r by (cbn; lia).
        replace (6 * S i - length (Cli.print_item x)) with (6 * i) by (cbn; lia).
        apply IH. exact Hit.
  - intros feed e ->. reflexivity.
Qed.

Lemma Cli_main_output_witness :
  let h := Ref.host_with "linux" [Byte.x31] in
  Served.scrapeUrlFeed h Served.feedURL = (Ref.feed_AB, None)
  /\ length (Cli.main h).1 = 14
  /\ (Cli.main h).1 !! 8 = Some ("Title: B" +:+ newline).
Proof.
  intros h. split; [reflexivity|].
  destruct (proj1 (Cli_main_output h) Ref.feed_AB eq_refl) as (_ & Hlen & Hnth).
  split; [exact Hlen|exact (Hnth 1 Ref.item_B eq_refl)].
Defined.

(** X16: The printer never shows the guid of an item, nor the link, the
    description or the build date of the channel: two hosts whose feeds
    have the same title and the same items up to the guid make it write
    the same. *)
Theorem Cli_main_ignores_guid (h1 h2 : Host) (feed1 feed2 : RSSFeed) :
  Served.scrapeUrlFeed h1 Served.feedURL = (feed1, None) ->
  Served.scrapeUrlFeed h2 Served.feedURL = (feed2, None) ->
  feed_Title feed1 = feed_Title feed2 ->
  map without_Id (feed_Items feed1) = map without_Id (feed_Items feed2) ->
  Cli.main h1 = Cli.main h2.
Proof.
  intros H1 H2 Htitle Hitems.
  rewrite !Cli_main_of_fetch, H1, H2, Htitle.
  rewrite (Cli_print_items_without_Id (feed_Items feed1)).
  rewrite (Cli_print_items_without_Id (feed_Items feed2)).
  rewrite Hitems. reflexivity.
Qed.

Lemma Cli_main_ignores_guid_witness :
  let h1 := Ref.host_with "linux" [Byte.x31] in
  let other :=
    {| feed_Title := "Playbook"; feed_Link := "http://elsewhere";
       feed_Description := "another channel"; feed_LastBuildDate := "Wed";
       feed_Items := map without_Id (feed_Items Ref.feed_AB) |} in
  let h2 :=
    {| GOOS := "linux"; http_Get := http_Get h1;
       xml_Unmarshal := fun _ _ => ({| Channel := other |}, None);
       exec_Start := exec_Start h1; glamour_Render := glamour_Render h1;
       docStyle := docStyle h1; modalStyle := modalStyle h1 |} in
  Served.scrapeUrlFeed h1 Served.feedURL = (Ref.feed_AB, None)
  /\ Served.scrapeUrlFeed h2 Served.feedURL = (other, None)
  /\ Ref.feed_AB <> other
  /\ Cli.main h1 = Cli.main h2.
Proof.
  intros h1 other h2.
  split; [reflexivity|]. split; [reflexivity|]. split; [discriminate|].
  exact (Cli_main_ignores_guid h1 h2 Ref.feed_AB other
           eq_refl eq_refl eq_refl eq_refl).
Defined.

Lemma teaHandler_starts_in_listing_witness :
  let h := Ref.host_with "linux" [] in
  let pty := {| Served.Width := 80; Served.Height := 24 |} in
  (Served.scrapeUrlFeed h Served.feedURL).2 <> None
  /\ (Served.teaHandler h pty).2 <> []
  /\ state_of (Served.teaHandler h pty).1.1 = Listing.
Proof.
  intros h pty.
  assert (Hfail : (Served.scrapeUrlFeed h Served.feedURL).2 <> None)
    by (vm_compute; discriminate).
  destruct (teaHandler_starts_in_listing h pty) as (_ & Hstate & _ & Hlog & _).
  split; [exact Hfail|]. split; [|exact Hstate].
  intros Hnone. exact (Hfail (proj1 Hlog Hnone)).
Defined.

(** ** The browser launcher, continued *)

(** X17: the command [openBrowser] starts is fixed by [runtime.GOOS]
    alone: "xdg-open" on linux, "rundll32" with the argument
    "url.dll,FileProtocolHandler" on windows, "open" on darwin.  The URL is
    handed over whole as the last argument and is never made part of the
    command; the result is the one of starting the process, so that
    [openBrowser] returns nil exactly when the start succeeds; and two
    hosts with the same OS and the same process starter give the same
    result. *)
Theorem openBrowser_url_is_last_argument (h : Host) (url : string) :
  (GOOS h = "linux" ->
   openBrowser h url = LibError <$> exec_Start h "xdg-open" [url]
   /\ (openBrowser h url = None <-> exec_Start h "xdg-open" [url] = None))
  /\ (GOOS h = "windows" ->
      openBrowser h url
      = LibError <$> exec_Start h "rundll32" ["url.dll,FileProtocolHandler"; url]
      /\ (openBrowser h url = None
          <-> exec_Start h "rundll32" ["url.dll,FileProtocolHandler"; url] = None))
  /\ (GOOS h = "darwin" ->
      openBrowser h url = LibError <$> exec_Start h "open" [url]
      /\ (openBrowser h url = None <-> exec_Start h "open" [url] = None))
  /\ (forall h' : Host,
        GOOS h' = GOOS h -> exec_Start h' = exec_Start h ->
        openBrowser h' url = openBrowser h url)
  /\ run_goroutine h (GoOpenBrowser url) = openBrowser h url.
Proof.
  split; [|split; [|split; [|split; [|reflexivity]]]].
  - intros Hos. unfold openBrowser. rewrite Hos. cbn.
    destruct (exec_Start h "xdg-open" [url]); cbn; repeat split; congruence.
  - intros Hos. unfold openBrowser. rewrite Hos. cbn.
    destruct (exec_Start h "rundll32" ["url.dll,FileProtocolHandler"; url]);
      cbn; repeat split; congruence.
  - intros Hos. unfold openBrowser. rewrite Hos. cbn.
    destruct (exec_Start h "open" [url]); cbn; repeat split; congruence.
  - intros h' Hos Hexec. unfold openBrowser. rewrite Hos, Hexec. reflexivity.
Qed.

Lemma openBrowser_url_is_last_argument_witness :
  let h := Ref.host_with "windows" [Byte.x31] in
  let failing :=
    {| GOOS := "windows"; http_Get := http_Get h; xml_Unmarshal := xml_Unmarshal h;
       exec_Start := fun cmd args =>
         if String.eqb cmd "rundll32" then None
         else Some (mkLibErr "os/exec" "executable file not found");
       glamour_Render := glamour_Render h;
       docStyle := docStyle h; modalStyle := modalStyle h |} in
  GOOS failing = "windows"
  /\ openBrowser failing "http://a; rm -rf /"
     = LibError <$> exec_Start failing "rundll32"
                      ["url.dll,FileProtocolHandler"; "http://a; rm -rf /"]
  /\ openBrowser failing "http://a; rm -rf /" = None.
Proof.
  intros h failing.
  assert (Hos : GOOS failing = "windows") by reflexivity.
  split; [exact Hos|].
  destruct (proj1 (proj2 (openBrowser_url_is_last_argument
                            failing "http://a; rm -rf /")) Hos) as [Hrun Hnil].
  split; [exact Hrun|]. apply Hnil. reflexivity.
Defined.
